(** * SimpleCV: single hold-out cross-validation

    A shallow embedding of [src/mlpack/core/cv/simple_cv_impl.hpp] (mlpack).
    The class splits a data set once into a training prefix and a validation
    suffix, trains a model on the prefix and scores it on the suffix.

    - [double] values are IEEE 754 binary64 numbers, rendered with the
      specification of floating-point arithmetic of the standard library
      ([SpecFloat]: [SFsub], [SFmul], [SFltb], [binary_normalize]).
    - [size_t] / [arma::uword] values are integers [Z] in [0, 2^64); the only
      subtractions of the source are written with their wrap-around.
    - Matrices are lists of columns (one column per data point), rows of
      responses and weights are lists.
    - A C++ call either returns, throws, or has undefined behaviour. *)

From Stdlib Require Import ZArith List Lia Bool String.
From Stdlib Require Import Floats.SpecFloat.
Import ListNotations.
Local Open Scope Z_scope.

(* ================================================================== *)
(** ** Doubles *)

Module Double.

Definition prec : Z := 53.
Definition emax : Z := 1024.

Definition double : Type := spec_float.

(** A [spec_float] is a binary64 number when its mantissa is canonical. *)
Definition is_double (x : double) : bool := valid_binary prec emax x.

Definition is_nan (x : double) : bool :=
  match x with S754_nan => true | _ => false end.

(** The literals [0.0] and [1.0]. *)
Definition zero : double := S754_zero false.
Definition one : double := S754_finite false 4503599627370496 (-52).

(** [x < y], [x - y], [x * y] on doubles. *)
Definition ltb (x y : double) : bool := SFltb x y.
Definition sub (x y : double) : double := SFsub prec emax x y.
Definition mul (x y : double) : double := SFmul prec emax x y.

(** Integral conversion [uword -> double] (round to nearest, ties to
    even). *)
Definition of_uword (n : Z) : double := binary_normalize prec emax n 0 false.

(** Magnitude of the nearest integer to [m * 2^e] for [e < 0], halfway
    cases away from zero. *)
Definition round_half_away (m : positive) (e : Z) : Z :=
  (Zpos m + 2 ^ (- e - 1)) / 2 ^ (- e).

(** [round] of <cmath>: the nearest integer value in floating-point
    format, halfway cases away from zero; zeros, infinities and NaN are
    returned unchanged. *)
Definition round (x : double) : double :=
  match x with
  | S754_finite s m e =>
      if 0 <=? e then x
      else binary_normalize prec emax (cond_Zopp s (round_half_away m e)) 0 s
  | _ => x
  end.

(** Truncation toward zero of a finite double. *)
Definition trunc (x : double) : option Z :=
  match x with
  | S754_zero _ => Some 0
  | S754_finite s m e =>
      Some (cond_Zopp s (if 0 <=? e then Zpos m * 2 ^ e
                         else Zpos m / 2 ^ (- e)))
  | _ => None
  end.

(** Floating-integral conversion [double -> size_t]: the value is
    truncated; the behaviour is undefined ([None]) when the truncated value
    is not representable in 64 bits (NaN and infinities included). *)
Definition to_uword (x : double) : option Z :=
  match trunc x with
  | Some z => if (0 <=? z) && (z <? 2 ^ 64) then Some z else None
  | None => None
  end.

(** Some literals used below. *)
Definition nan : double := S754_nan.
Definition half : double := S754_finite false 4503599627370496 (-53).
(** [0.3] and [0.1]: the binary64 numbers nearest to 3/10 and 1/10. *)
Definition d0_3 : double := S754_finite false 5404319552844595 (-54).
Definition d0_1 : double := S754_finite false 7205759403792794 (-56).
(** [2.5] and [-2.5]. *)
Definition two_and_a_half : double :=
  S754_finite false 5629499534213120 (-51).
Definition minus_two_and_a_half : double :=
  S754_finite true 5629499534213120 (-51).
(** [2^-60], a positive double so small that [1.0 - 2^-60] rounds to
    [1.0]. *)
Definition tiny : double := S754_finite false 4503599627370496 (-112).

(** [lo <= f <= hi] for integers [lo], [hi] and a double [f] of sign [s]
    whose exponent is not positive. *)
Definition in_range (s : bool) (lo hi : Z) (f : double) : Prop :=
  match f with
  | S754_zero s' => s' = s /\ lo <= 0 <= hi
  | S754_finite s' m e =>
      s' = s /\ e <= 0 /\ lo * 2 ^ (- e) <= Zpos m <= hi * 2 ^ (- e)
  | _ => False
  end.

End Double.

(* ================================================================== *)
(** ** Outcomes of a call *)

(** The exceptions that can leave the class.  [external] carries an error
    raised by the training routine or by the metric; [inconsistent_data]
    is the failure of the consistency check of the base class, for which
    the spec names no error kind. *)
Inductive exn (E : Type) : Type :=
| invalid_argument (what : string)
| logic_error (what : string)
| inconsistent_data
| external (e : E).
Arguments invalid_argument {E} what.
Arguments logic_error {E} what.
Arguments inconsistent_data {E}.
Arguments external {E} e.

(** The operations of the source without defined behaviour outside their
    domain. *)
Inductive undefined_behaviour : Type :=
| float_to_integer_out_of_range
| subset_out_of_bounds
| null_dereference.

Inductive outcome (E A : Type) : Type :=
| Returned (a : A)
| Threw (e : exn E)
| Undefined (u : undefined_behaviour).
Arguments Returned {E A} a.
Arguments Threw {E A} e.
Arguments Undefined {E A} u.

Definition obind {E A B} (o : outcome E A) (k : A -> outcome E B)
  : outcome E B :=
  match o with
  | Returned a => k a
  | Threw e => Threw e
  | Undefined u => Undefined u
  end.

Notation "x <- o ;; k" := (obind o (fun x => k))
  (at level 61, o at next level, right associativity).

Definition is_invalid_argument {E A} (o : outcome E A) : bool :=
  match o with Threw (invalid_argument _) => true | _ => false end.

(** The message of the logic error of [SimpleCV::Model]. *)
Definition uninitialized : string :=
  "SimpleCV::Model(): attempted to access an uninitialized model".

(** [size_t] subtraction. *)
Definition usub (a b : Z) : Z := (a - b) mod 2 ^ 64.

(** The members [n_cols] of a matrix and [n_elem] of a row or vector. *)
Definition n_cols {A} (m : list A) : Z := Z.of_nat (List.length m).
Definition n_elem {A} (m : list A) : Z := Z.of_nat (List.length m).

(** The value [round(n_cols * (1.0 - validationSize))] converted to
    [size_t], when the conversion is defined. *)
Definition trainingPoints (validationSize : Double.double) (n : Z)
  : option Z :=
  Double.to_uword
    (Double.round
       (Double.mul (Double.of_uword n)
                   (Double.sub Double.one validationSize))).

(* ================================================================== *)
(** ** The class *)

Section SimpleCV.

(** [Point] is a column of [MatType], [Target] an element of
    [PredictionsType], [Weight] an element of [WeightsType], [MLAlgorithm]
    is the type of trained models, [Args] stands for the pack
    [MLAlgorithmArgs...] and [E] for the errors of the external
    routines. *)
Variables Point Target Weight MLAlgorithm Args E : Type.

(** Modelled from the spec: the training capability ([CVBase::Train],
    declared in [cv_base.hpp]): a function accepting (features, targets
    [, weights], extra args...) and returning an owned model instance; it
    may fail with an error of its own. *)
Variable TrainUnweighted :
  list Point -> list Target -> Args -> E + MLAlgorithm.
Variable TrainWeighted :
  list Point -> list Target -> list Weight -> Args -> E + MLAlgorithm.

(** Modelled from the spec: the metric capability ([Metric::Evaluate]):
    a function accepting (model, validation features, validation targets)
    and returning a real-valued score; it may fail similarly. *)
Variable MetricEvaluate :
  MLAlgorithm -> list Point -> list Target -> E + Double.double.

(** Modelled from the spec: [Base::MIE::SupportsWeights], the static
    capability check that selects the overload of [TrainAndEvaluate]
    (whether the training capability accepts a weights argument). *)
Variable SupportsWeights : bool.

(** The data members. *)
Record SimpleCV : Type := mkSimpleCV {
  xs : list Point;
  ys : list Target;
  weights : list Weight;
  trainingXs : list Point;
  trainingYs : list Target;
  validationXs : list Point;
  validationYs : list Target;
  trainingWeights : list Weight;
  modelPtr : option MLAlgorithm
}.

(** The object before the constructor body runs: empty matrices, null
    [modelPtr]. *)
Definition fresh : SimpleCV := mkSimpleCV [] [] [] [] [] [] [] [] None.

(** Modelled from the spec: [GetSubset(m, first, last)] (declared in
    [simple_cv.hpp]) materializes the contiguous range of points
    [first .. last], both included.  A range that is not inside [m] has
    no defined result. *)
Definition GetSubset {A} (m : list A) (first last : Z)
  : outcome E (list A) :=
  if (0 <=? first) && (first <=? last) && (last <? n_cols m)
  then Returned (firstn (Z.to_nat (last - first + 1))
                        (skipn (Z.to_nat first) m))
  else Undefined subset_out_of_bounds.

(** Modelled from the spec: [Base::AssertDataConsistency] (declared in
    [cv_base.hpp]) validates that feature, target and weight counts
    match. *)
Definition AssertDataConsistency (x : list Point) (y : list Target)
  : outcome E unit :=
  if n_cols x =? n_elem y then Returned tt else Threw inconsistent_data.

Definition AssertDataConsistencyW (x : list Point) (y : list Target)
    (w : list Weight) : outcome E unit :=
  _ <- AssertDataConsistency x y ;;
  if n_elem w =? n_cols x then Returned tt else Threw inconsistent_data.

(** [SimpleCV::CalculateAndAssertNumberOfTrainingPoints]. *)
Definition CalculateAndAssertNumberOfTrainingPoints
    (this : SimpleCV) (validationSize : Double.double) : outcome E Z :=
  if Double.ltb validationSize Double.zero
     || Double.ltb Double.one validationSize
  then Threw (invalid_argument
    "SimpleCV: the validationSize parameter should be more than 0 and less than 1")
  else if n_cols (xs this) <? 2
  then Threw (invalid_argument
    "SimpleCV: 2 or more data points are expected")
  else
    match Double.to_uword
            (Double.round
               (Double.mul (Double.of_uword (n_cols (xs this)))
                           (Double.sub Double.one validationSize))) with
    | None => Undefined float_to_integer_out_of_range
    | Some trainingPoints =>
        if (trainingPoints =? 0) || (trainingPoints =? n_cols (xs this))
        then Threw (invalid_argument
          "SimpleCV: the validationSize parameter is either too small or too big")
        else Returned trainingPoints
    end.

(** [SimpleCV::InitTrainingAndValidationSets]. *)
Definition InitTrainingAndValidationSets
    (this : SimpleCV) (validationSize : Double.double)
  : outcome E SimpleCV :=
  numberOfTrainingPoints <-
    CalculateAndAssertNumberOfTrainingPoints this validationSize ;;
  trX <- GetSubset (xs this) 0 (usub numberOfTrainingPoints 1) ;;
  trY <- GetSubset (ys this) 0 (usub numberOfTrainingPoints 1) ;;
  vaX <- GetSubset (xs this) numberOfTrainingPoints
                   (usub (n_cols (xs this)) 1) ;;
  vaY <- GetSubset (ys this) numberOfTrainingPoints
                   (usub (n_cols (xs this)) 1) ;;
  Returned (mkSimpleCV (xs this) (ys this) (weights this)
                       trX trY vaX vaY
                       (trainingWeights this) (modelPtr this)).

(** [SimpleCV::Init], the overload for data without weights. *)
Definition Init (this : SimpleCV) (validationSize : Double.double)
    (x : list Point) (y : list Target) : outcome E SimpleCV :=
  let this := mkSimpleCV x y (weights this)
                (trainingXs this) (trainingYs this)
                (validationXs this) (validationYs this)
                (trainingWeights this) (modelPtr this) in
  _ <- AssertDataConsistency (xs this) (ys this) ;;
  InitTrainingAndValidationSets this validationSize.

(** [SimpleCV::Init], the overload for data with weights. *)
Definition InitWeighted (this : SimpleCV) (validationSize : Double.double)
    (x : list Point) (y : list Target) (w : list Weight)
  : outcome E SimpleCV :=
  let this := mkSimpleCV x y w
                (trainingXs this) (trainingYs this)
                (validationXs this) (validationYs this)
                (trainingWeights this) (modelPtr this) in
  _ <- AssertDataConsistencyW (xs this) (ys this) (weights this) ;;
  this <- InitTrainingAndValidationSets this validationSize ;;
  trW <- GetSubset (weights this) 0 (usub (n_cols (trainingXs this)) 1) ;;
  Returned (mkSimpleCV (xs this) (ys this) (weights this)
                       (trainingXs this) (trainingYs this)
                       (validationXs this) (validationYs this)
                       trW (modelPtr this)).

(** The data arguments extracted by [Base::ExtractDataArgs]: a tuple of
    two or of three components. *)
Inductive DataArgs : Type :=
| Unweighted (x : list Point) (y : list Target)
| WithWeights (x : list Point) (y : list Target) (w : list Weight).

(** The constructor [SimpleCV::SimpleCV(validationSize, args...)]. *)
Definition construct (validationSize : Double.double) (args : DataArgs)
  : outcome E SimpleCV :=
  match args with
  | Unweighted x y => Init fresh validationSize x y
  | WithWeights x y w => InitWeighted fresh validationSize x y w
  end.

(** The object once the constructor has stored its data arguments. *)
Definition with_data (d : DataArgs) : SimpleCV :=
  match d with
  | Unweighted x y => mkSimpleCV x y [] [] [] [] [] [] None
  | WithWeights x y w => mkSimpleCV x y w [] [] [] [] [] None
  end.

(** The object built from a split point [k] strictly inside the data. *)
Definition split_at (this : SimpleCV) (k : Z) : SimpleCV :=
  mkSimpleCV (xs this) (ys this) (weights this)
             (firstn (Z.to_nat k) (xs this)) (firstn (Z.to_nat k) (ys this))
             (skipn (Z.to_nat k) (xs this)) (skipn (Z.to_nat k) (ys this))
             (trainingWeights this) (modelPtr this).

(** [this] with [modelPtr] pointing to [m]. *)
Definition with_model (this : SimpleCV) (m : MLAlgorithm) : SimpleCV :=
  mkSimpleCV (xs this) (ys this) (weights this)
             (trainingXs this) (trainingYs this)
             (validationXs this) (validationYs this)
             (trainingWeights this) (Some m).

(** *** Member functions that run after construction

    A member function takes the object and gives its outcome, the object
    as the call leaves it (also when it throws) and the calls made to the
    external routines, in order. *)

Inductive call : Type :=
| CallTrain (x : list Point) (y : list Target) (a : Args)
| CallTrainWeighted (x : list Point) (y : list Target)
    (w : list Weight) (a : Args)
| CallMetric (m : MLAlgorithm) (x : list Point) (y : list Target).

Definition method (A : Type) : Type :=
  SimpleCV -> outcome E A * SimpleCV * list call.

Definition ret {A} (a : A) : method A :=
  fun this => (Returned a, this, []).

Definition throw {A} (e : exn E) : method A :=
  fun this => (Threw e, this, []).

Definition mbind {A B} (m : method A) (k : A -> method B) : method B :=
  fun this =>
    match m this with
    | (Returned a, this', t) =>
        let '(r, this'', t') := k a this' in (r, this'', t ++ t')
    | (Threw e, this', t) => (Threw e, this', t)
    | (Undefined u, this', t) => (Undefined u, this', t)
    end.

Notation "x <~ m ;; k" := (mbind m (fun x => k))
  (at level 61, m at next level, right associativity).

Definition read {A} (field : SimpleCV -> A) : method A :=
  fun this => (Returned (field this), this, []).

(** The assignment [modelPtr = p]. *)
Definition assign_modelPtr (p : option MLAlgorithm) : method unit :=
  fun this =>
    (Returned tt,
     mkSimpleCV (xs this) (ys this) (weights this)
                (trainingXs this) (trainingYs this)
                (validationXs this) (validationYs this)
                (trainingWeights this) p,
     []).

(** The dereference [*modelPtr]. *)
Definition deref_modelPtr : method MLAlgorithm :=
  fun this =>
    match modelPtr this with
    | Some m => (Returned m, this, [])
    | None => (Undefined null_dereference, this, [])
    end.

(** A call of an external routine: logged, its error propagated
    unchanged. *)
Definition extern {A} (c : call) (r : E + A) : method A :=
  fun this =>
    (match r with inl e => Threw (external e) | inr a => Returned a end,
     this, [c]).

Definition Train (x : list Point) (y : list Target) (args : Args)
  : method MLAlgorithm :=
  extern (CallTrain x y args) (TrainUnweighted x y args).

Definition TrainW (x : list Point) (y : list Target) (w : list Weight)
    (args : Args) : method MLAlgorithm :=
  extern (CallTrainWeighted x y w args) (TrainWeighted x y w args).

Definition Metric_Evaluate (m : MLAlgorithm) (x : list Point)
    (y : list Target) : method Double.double :=
  extern (CallMetric m x y) (MetricEvaluate m x y).

(** [SimpleCV::TrainAndEvaluate], the overload enabled when the algorithm
    does not support weights. *)
Definition TrainAndEvaluate_unweighted (args : Args)
  : method Double.double :=
  trX <~ read trainingXs ;;
  trY <~ read trainingYs ;;
  m <~ Train trX trY args ;;
  _ <~ assign_modelPtr (Some m) ;;
  model <~ deref_modelPtr ;;
  vaX <~ read validationXs ;;
  vaY <~ read validationYs ;;
  Metric_Evaluate model vaX vaY.

(** [SimpleCV::TrainAndEvaluate], the overload enabled when the algorithm
    supports weights. *)
Definition TrainAndEvaluate_weighted (args : Args)
  : method Double.double :=
  trX <~ read trainingXs ;;
  trY <~ read trainingYs ;;
  trW <~ read trainingWeights ;;
  m <~ (if 0 <? n_elem trW then TrainW trX trY trW args
        else Train trX trY args) ;;
  _ <~ assign_modelPtr (Some m) ;;
  model <~ deref_modelPtr ;;
  vaX <~ read validationXs ;;
  vaY <~ read validationYs ;;
  Metric_Evaluate model vaX vaY.

Definition TrainAndEvaluate (args : Args) : method Double.double :=
  if SupportsWeights then TrainAndEvaluate_weighted args
  else TrainAndEvaluate_unweighted args.

(** [SimpleCV::Evaluate]. *)
Definition Evaluate (args : Args) : method Double.double :=
  TrainAndEvaluate args.

(** [SimpleCV::Model]. *)
Definition Model : method MLAlgorithm :=
  fun this =>
    match modelPtr this with
    | None =>
        throw (logic_error
          "SimpleCV::Model(): attempted to access an uninitialized model")
          this
    | Some m => ret m this
    end.

(** What the training routine returns in an [Evaluate] call on [this],
    and the call that is made: the weighted form when the algorithm
    supports weights and [trainingWeights] is not empty. *)
Definition trained (this : SimpleCV) (args : Args) : E + MLAlgorithm :=
  if SupportsWeights && (0 <? n_elem (trainingWeights this))
  then TrainWeighted (trainingXs this) (trainingYs this)
                     (trainingWeights this) args
  else TrainUnweighted (trainingXs this) (trainingYs this) args.

Definition training_call (this : SimpleCV) (args : Args) : call :=
  if SupportsWeights && (0 <? n_elem (trainingWeights this))
  then CallTrainWeighted (trainingXs this) (trainingYs this)
                         (trainingWeights this) args
  else CallTrain (trainingXs this) (trainingYs this) args.

(** Projections of a call's result. *)
Definition result {A} (r : outcome E A * SimpleCV * list call)
  : outcome E A := fst (fst r).
Definition after {A} (r : outcome E A * SimpleCV * list call)
  : SimpleCV := snd (fst r).
Definition calls {A} (r : outcome E A * SimpleCV * list call)
  : list call := snd r.

(** The objects that [Evaluate] and [Model] calls lead to. *)
Inductive reachable (this0 : SimpleCV) : SimpleCV -> Prop :=
| reach_refl : reachable this0 this0
| reach_Evaluate this args :
    reachable this0 this ->
    reachable this0 (after (Evaluate args this))
| reach_Model this :
    reachable this0 this ->
    reachable this0 (after (Model this)).

(** The two states of the evaluator. *)
Inductive state : Type := NoModel | HasModel.

Definition state_of (this : SimpleCV) : state :=
  match modelPtr this with None => NoModel | Some _ => HasModel end.

(** The data fixed by the constructor. *)
Definition same_split (a b : SimpleCV) : Prop :=
  xs a = xs b /\ ys a = ys b /\ weights a = weights b /\
  trainingXs a = trainingXs b /\ trainingYs a = trainingYs b /\
  validationXs a = validationXs b /\ validationYs a = validationYs b /\
  trainingWeights a = trainingWeights b.

Definition data_xs (d : DataArgs) : list Point :=
  match d with Unweighted x _ => x | WithWeights x _ _ => x end.
Definition data_ys (d : DataArgs) : list Target :=
  match d with Unweighted _ y => y | WithWeights _ y _ => y end.

(** The data set invariant: as many targets (and weights) as points. *)
Definition consistent (d : DataArgs) : Prop :=
  match d with
  | Unweighted x y => n_elem y = n_cols x
  | WithWeights x y w => n_elem y = n_cols x /\ n_elem w = n_cols x
  end.

(** The object after a sequence of [Evaluate] calls, whatever their
    outcomes. *)
Definition after_Evaluates (argss : list Args) (this : SimpleCV)
  : SimpleCV :=
  fold_left (fun t a => after (Evaluate a t)) argss this.

(** The model given by the last training step that succeeds in a sequence
    of [Evaluate] calls on the split of [this]; [p] if none succeeds. *)
Definition last_trained (this : SimpleCV) (argss : list Args)
    (p : option MLAlgorithm) : option MLAlgorithm :=
  fold_left
    (fun acc a => match trained this a with
                  | inr m => Some m
                  | inl _ => acc
                  end)
    argss p.

(** [u] with the weights [w] stored and as many training weights as
    training points. *)
Definition with_weights (u : SimpleCV) (w : list Weight) : SimpleCV :=
  mkSimpleCV (xs u) (ys u) w
             (trainingXs u) (trainingYs u)
             (validationXs u) (validationYs u)
             (firstn (List.length (trainingXs u)) w) (modelPtr u).

End SimpleCV.

Arguments mkSimpleCV {Point Target Weight MLAlgorithm}.
Arguments xs {Point Target Weight MLAlgorithm} s.
Arguments ys {Point Target Weight MLAlgorithm} s.
Arguments weights {Point Target Weight MLAlgorithm} s.
Arguments trainingXs {Point Target Weight MLAlgorithm} s.
Arguments trainingYs {Point Target Weight MLAlgorithm} s.
Arguments validationXs {Point Target Weight MLAlgorithm} s.
Arguments validationYs {Point Target Weight MLAlgorithm} s.
Arguments trainingWeights {Point Target Weight MLAlgorithm} s.
Arguments modelPtr {Point Target Weight MLAlgorithm} s.
Arguments fresh {Point Target Weight MLAlgorithm}.
Arguments GetSubset {E A} m first last.
Arguments Unweighted {Point Target Weight} x y.
Arguments WithWeights {Point Target Weight} x y w.
Arguments with_data {Point Target Weight MLAlgorithm} d.
Arguments split_at {Point Target Weight MLAlgorithm} this k.
Arguments with_model {Point Target Weight MLAlgorithm} this m.
Arguments with_weights {Point Target Weight MLAlgorithm} u w.
Arguments data_xs {Point Target Weight} d.
Arguments data_ys {Point Target Weight} d.
Arguments consistent {Point Target Weight} d.
Arguments same_split {Point Target Weight MLAlgorithm} a b.
Arguments state_of {Point Target Weight MLAlgorithm} this.
Arguments CallTrain {Point Target Weight MLAlgorithm Args} x y a.
Arguments CallTrainWeighted {Point Target Weight MLAlgorithm Args} x y w a.
Arguments CallMetric {Point Target Weight MLAlgorithm Args} m x y.
Arguments result {Point Target Weight MLAlgorithm Args E A} r.
Arguments after {Point Target Weight MLAlgorithm Args E A} r.
Arguments calls {Point Target Weight MLAlgorithm Args E A} r.

(* ================================================================== *)
(** ** A concrete instance

    Points, targets and weights are integers; a trained model is an
    integer too.  Training fails on a negative argument, the metric fails
    on the model [13]. *)

Module Demo.

Definition train (x : list Z) (y : list Z) (a : Z) : string + Z :=
  if a <? 0 then inl "training failed"%string else inr a.

Definition trainW (x : list Z) (y : list Z) (w : list Z) (a : Z)
  : string + Z :=
  if a <? 0 then inl "training failed"%string else inr (a + 1000).

Definition metric (m : Z) (x : list Z) (y : list Z)
  : string + Double.double :=
  if m =? 13 then inl "metric failed"%string
  else inr (Double.of_uword (n_cols x)).

Definition Evaluate (supportsWeights : bool) (a : Z) :=
  Evaluate Z Z Z Z Z string train trainW metric supportsWeights a.

Definition Model := Model Z Z Z Z Z string.

Definition construct (v : Double.double) (d : DataArgs Z Z Z)
  : outcome string (SimpleCV Z Z Z Z) :=
  construct Z Z Z Z string v d.

Definition ten_xs : list Z := [0; 1; 2; 3; 4; 5; 6; 7; 8; 9].
Definition ten_ys : list Z := [10; 11; 12; 13; 14; 15; 16; 17; 18; 19].

(** Four points split in two halves, as [construct] builds it for a
    validation size of [0.5]. *)
Definition cv4 : SimpleCV Z Z Z Z :=
  mkSimpleCV [0; 1; 2; 3] [10; 11; 12; 13] []
             [0; 1] [10; 11] [2; 3] [12; 13] [] None.

(** Ten and two points, as [construct] builds them for the validation
    sizes [0.3] and [0.5]. *)
Definition cv10 : SimpleCV Z Z Z Z :=
  mkSimpleCV ten_xs ten_ys []
             [0; 1; 2; 3; 4; 5; 6] [10; 11; 12; 13; 14; 15; 16]
             [7; 8; 9] [17; 18; 19] [] None.
Definition cv2 : SimpleCV Z Z Z Z :=
  mkSimpleCV [0; 1] [10; 11] [] [0] [10] [1] [11] [] None.

(** The same with weights. *)
Definition cv4w : SimpleCV Z Z Z Z :=
  mkSimpleCV [0; 1; 2; 3] [10; 11; 12; 13] [5; 6; 7; 8]
             [0; 1] [10; 11] [2; 3] [12; 13] [5; 6] None.

(** Data sets of [2^53 + 1] and of [2^53 + 3] points. *)
Definition zeros (n : Z) : list Z := repeat 0 (Z.to_nat n).
Definition big_data : DataArgs Z Z Z :=
  Unweighted (zeros (2 ^ 53 + 1)) (zeros (2 ^ 53 + 1)).
Definition huge_data : DataArgs Z Z Z :=
  Unweighted (zeros (2 ^ 53 + 3)) (zeros (2 ^ 53 + 3)).

End Demo.

(* ================================================================== *)
(** ** Facts on binary64 rounding *)

Module DoubleFacts.
Import Double.

Lemma digits2_pos_size (m : positive) : digits2_pos m = Pos.size m.
Proof. induction m; simpl; congruence. Qed.

Lemma digits2_bounds (m : positive) :
  2 ^ (Zpos (digits2_pos m) - 1) <= Zpos m < 2 ^ Zpos (digits2_pos m).
Proof.
  rewrite digits2_pos_size. split.
  - pose proof (Pos.size_le m) as H.
    assert (Hs : Zpos (2 ^ Pos.size m) <= Zpos m~0)
      by (apply Pos2Z.pos_le_pos; exact H).
    rewrite Pos2Z.inj_pow in Hs.
    replace (Zpos (Pos.size m)) with (Zpos (Pos.size m) - 1 + 1) in Hs by lia.
    rewrite Z.pow_add_r in Hs by lia.
    rewrite Z.pow_1_r, (Pos2Z.inj_xO m) in Hs. lia.
  - pose proof (Pos.size_gt m) as H.
    assert (Hs : Zpos m < Zpos (2 ^ Pos.size m))
      by (apply Pos2Z.pos_lt_pos; exact H).
    rewrite Pos2Z.inj_pow in Hs. exact Hs.
Qed.

(** A positive integer below [2^k] has at most [k] digits. *)
Lemma digits2_le (m : positive) (k : Z) :
  Zpos m < 2 ^ k -> Zpos (digits2_pos m) <= k.
Proof.
  intros H. destruct (digits2_bounds m) as [Hlo _].
  destruct (Z_lt_le_dec k (Zpos (digits2_pos m))) as [Hk|Hk]; [|exact Hk].
  exfalso.
  destruct (Z_lt_le_dec k 0) as [Hn|Hn].
  - rewrite Z.pow_neg_r in H by lia. lia.
  - assert (2 ^ k <= 2 ^ (Zpos (digits2_pos m) - 1))
      by (apply Z.pow_le_mono_r; lia).
    lia.
Qed.

Lemma iter_pos_nat {A} (f : A -> A) (p : positive) (x : A) :
  iter_pos f p x = Nat.iter (Pos.to_nat p) f x.
Proof.
  revert x. induction p as [p IH|p IH|]; intros x; cbn [iter_pos].
  - rewrite !IH, Pos2Nat.inj_xI.
    replace (S (2 * Pos.to_nat p))%nat
      with (Pos.to_nat p + (Pos.to_nat p + 1))%nat by lia.
    rewrite !Nat.iter_add. reflexivity.
  - rewrite !IH, Pos2Nat.inj_xO.
    replace (2 * Pos.to_nat p)%nat
      with (Pos.to_nat p + Pos.to_nat p)%nat by lia.
    rewrite Nat.iter_add. reflexivity.
  - reflexivity.
Qed.

Lemma shr_1_spec (q : Z) (r s : bool) :
  0 <= q ->
  shr_1 (Build_shr_record q r s)
  = Build_shr_record (q / 2) (Z.odd q) (r || s).
Proof.
  intros Hq. rewrite <- Z.div2_div.
  destruct q as [|p|p]; [reflexivity| |lia].
  destruct p; reflexivity.
Qed.

(** [n] right shifts of [x]: the quotient, and no sticky bit when the
    division is exact. *)
Lemma shr_iter (x : Z) (n : nat) :
  0 <= x ->
  let mrs := Nat.iter n shr_1 (Build_shr_record x false false) in
  shr_m mrs = x / 2 ^ Z.of_nat n /\
  (x mod 2 ^ Z.of_nat n = 0 -> shr_r mrs = false /\ shr_s mrs = false).
Proof.
  intros Hx. induction n as [|n IH].
  - simpl. rewrite Z.div_1_r. auto.
  - cbv zeta in IH |- *. rewrite Nat.iter_succ.
    destruct (Nat.iter n shr_1 (Build_shr_record x false false))
      as [q r s] eqn:Eq.
    cbn [shr_m shr_r shr_s] in IH. destruct IH as [IHq IHrs].
    assert (Hq : 0 <= q) by (subst q; apply Z.div_pos; lia).
    rewrite shr_1_spec by exact Hq. cbn [shr_m shr_r shr_s].
    rewrite Nat2Z.inj_succ, Z.pow_succ_r by lia.
    split.
    + subst q. rewrite Z.div_div by lia. f_equal. lia.
    + intros Hmod.
      assert (Hdiv : (2 ^ Z.of_nat n * 2 | x)).
      { apply Z.mod_divide; [lia|]. rewrite Z.mul_comm. exact Hmod. }
      destruct Hdiv as [c Hc].
      assert (Hmodn : x mod 2 ^ Z.of_nat n = 0).
      { subst x. replace (c * (2 ^ Z.of_nat n * 2))
          with (c * 2 * 2 ^ Z.of_nat n) by ring.
        apply Z.mod_mul. lia. }
      destruct (IHrs Hmodn) as [-> ->]. split; [|reflexivity].
      subst q x. replace (c * (2 ^ Z.of_nat n * 2))
        with (c * 2 * 2 ^ Z.of_nat n) by ring.
      rewrite Z.div_mul by lia.
      rewrite Z.odd_mul. simpl. apply andb_false_r.
Qed.

Lemma div_pow2_range (x L H k : Z) :
  0 <= k -> L * 2 ^ k <= x <= H * 2 ^ k -> L <= x / 2 ^ k <= H.
Proof.
  intros Hk [Hl Hh].
  assert (0 < 2 ^ k) by (apply Z.pow_pos_nonneg; lia).
  split.
  - apply Z.div_le_lower_bound; lia.
  - apply Z.div_le_upper_bound; lia.
Qed.

Lemma shr_spec (x e n : Z) :
  0 <= x ->
  let r := shr (Build_shr_record x false false) e n in
  snd r = e + Z.max n 0 /\
  shr_m (fst r) = x / 2 ^ Z.max n 0 /\
  (x mod 2 ^ Z.max n 0 = 0 -> loc_of_shr_record (fst r) = loc_Exact).
Proof.
  intros Hx. unfold shr. destruct n as [|p|p]; cbn [fst snd shr_m].
  - rewrite Z.max_r by lia. rewrite Z.add_0_r, Z.div_1_r. auto.
  - rewrite Z.max_l by lia. rewrite iter_pos_nat.
    destruct (shr_iter x (Pos.to_nat p) Hx) as [Hm Hrs].
    rewrite positive_nat_Z in Hm, Hrs.
    split; [reflexivity|]. split; [exact Hm|].
    intros Hmod. destruct (Hrs Hmod) as [Hr Hs].
    destruct (Nat.iter (Pos.to_nat p) shr_1 (Build_shr_record x false false))
      as [q r s].
    cbn [shr_r shr_s] in Hr, Hs. subst r s. reflexivity.
  - rewrite Z.max_r by lia. rewrite Z.add_0_r, Z.div_1_r. auto.
Qed.

Lemma round_nearest_even_range (q : Z) (l : location) :
  q <= round_nearest_even q l <= q + 1.
Proof.
  destruct l as [|[]]; cbn [round_nearest_even]; try lia.
  destruct (Z.even q); lia.
Qed.

(** Shifting right and rounding to nearest stays between two bounds
    that are on the coarser grid. *)
Lemma shr_round_range (x e n L H : Z) :
  0 <= x ->
  L * 2 ^ Z.max n 0 <= x <= H * 2 ^ Z.max n 0 ->
  let mrs := fst (shr (Build_shr_record x false false) e n) in
  L <= shr_m mrs <= H /\
  L <= round_nearest_even (shr_m mrs) (loc_of_shr_record mrs) <= H.
Proof.
  intros Hx Hr mrs.
  destruct (shr_spec x e n Hx) as (_ & Hm & Hex). fold mrs in Hm, Hex.
  set (k := Z.max n 0) in *.
  assert (Hk : 0 <= k) by (unfold k; lia).
  assert (Hp : 0 < 2 ^ k) by (apply Z.pow_pos_nonneg; lia).
  assert (Hq : L <= shr_m mrs <= H)
    by (rewrite Hm; apply div_pow2_range; assumption).
  split; [exact Hq|].
  pose proof (round_nearest_even_range (shr_m mrs) (loc_of_shr_record mrs))
    as Hrn.
  split; [lia|].
  destruct (Z.eq_dec (x mod 2 ^ k) 0) as [Hz|Hnz].
  - rewrite (Hex Hz). cbn [round_nearest_even]. lia.
  - assert (shr_m mrs < H); [|lia].
    destruct (Z_lt_le_dec (shr_m mrs) H) as [Hlt|Hge]; [exact Hlt|].
    exfalso. apply Hnz.
    assert (Hxe : x = H * 2 ^ k).
    { pose proof (Z.mul_div_le x (2 ^ k) Hp) as Hd.
      rewrite <- Hm in Hd. nia. }
    rewrite Hxe. apply Z.mod_mul. lia.
Qed.

Lemma fexp_eq (x : Z) : fexp prec emax x = Z.max (x - 53) (-1074).
Proof. reflexivity. Qed.

Lemma pow2_pos (k : Z) : 0 <= k -> 0 < 2 ^ k.
Proof. intros; apply Z.pow_pos_nonneg; lia. Qed.

Lemma Zdigits2_fexp_le (x e hi : Z) :
  0 <= x -> e <= 0 -> hi < 2 ^ 53 -> x <= hi * 2 ^ (- e) ->
  fexp prec emax (Zdigits2 x + e) <= 0.
Proof.
  intros Hx He Hhi Hxh. rewrite fexp_eq.
  destruct x as [|p|p]; cbn [Zdigits2]; try lia.
  assert (Hp : Zpos p < 2 ^ (53 - e)).
  { replace (53 - e) with (53 + - e) by lia.
    rewrite Z.pow_add_r by lia.
    pose proof (pow2_pos (- e)).
    assert (hi * 2 ^ (- e) < 2 ^ 53 * 2 ^ (- e))
      by (apply Z.mul_lt_mono_pos_r; lia).
    lia. }
  pose proof (digits2_le p _ Hp). lia.
Qed.

(** One stage of [binary_round_aux]: the shift to the exponent of the
    format keeps the mantissa, rounded or truncated, between the bounds. *)
Lemma shr_fexp_stage (x e lo hi : Z) :
  0 <= x -> e <= 0 -> hi < 2 ^ 53 ->
  lo * 2 ^ (- e) <= x <= hi * 2 ^ (- e) ->
  let r := shr_fexp prec emax x e loc_Exact in
  snd r <= 0 /\
  lo * 2 ^ (- snd r) <= shr_m (fst r) <= hi * 2 ^ (- snd r) /\
  lo * 2 ^ (- snd r)
    <= round_nearest_even (shr_m (fst r)) (loc_of_shr_record (fst r))
    <= hi * 2 ^ (- snd r).
Proof.
  intros Hx He Hhi Hr. unfold shr_fexp. cbn [shr_record_of_loc].
  pose proof (Zdigits2_fexp_le x e hi Hx He Hhi (proj2 Hr)) as Hf.
  set (n := fexp prec emax (Zdigits2 x + e) - e) in *.
  cbv zeta.
  destruct (shr_spec x e n Hx) as (He' & _ & _).
  set (r := shr (Build_shr_record x false false) e n) in *.
  assert (Hle : snd r <= 0) by (rewrite He'; unfold n; lia).
  split; [exact Hle|].
  apply (shr_round_range x e n); [exact Hx|].
  assert (Hpow : 2 ^ (- e) = 2 ^ (- snd r) * 2 ^ Z.max n 0).
  { rewrite <- Z.pow_add_r by lia. f_equal. lia. }
  rewrite <- !Z.mul_assoc, <- Hpow. exact Hr.
Qed.

(** Rounding to binary64 stays between two integers below [2^53]. *)
Lemma binary_round_aux_range (s : bool) (m : positive) (e lo hi : Z) :
  e <= 0 -> 0 <= lo -> hi < 2 ^ 53 ->
  lo * 2 ^ (- e) <= Zpos m <= hi * 2 ^ (- e) ->
  in_range s lo hi (binary_round_aux prec emax s (Zpos m) e loc_Exact).
Proof.
  intros He Hlo Hhi Hr. unfold binary_round_aux.
  destruct (shr_fexp_stage (Zpos m) e lo hi) as (He1 & _ & Hr1);
    try assumption; try lia.
  destruct (shr_fexp prec emax (Zpos m) e loc_Exact) as [mrs1 e1].
  cbn [fst snd] in He1, Hr1.
  set (r1 := round_nearest_even (shr_m mrs1) (loc_of_shr_record mrs1)) in *.
  assert (H0 : 0 <= r1).
  { pose proof (pow2_pos (- e1)). nia. }
  destruct (shr_fexp_stage r1 e1 lo hi) as (He2 & Hr2 & _);
    try assumption.
  destruct (shr_fexp prec emax r1 e1 loc_Exact) as [mrs2 e2].
  cbn [fst snd] in He2, Hr2.
  pose proof (pow2_pos (- e2)) as Hp2.
  destruct (shr_m mrs2) as [|m2|m2]; cbn [in_range].
  - split; [reflexivity|]. nia.
  - destruct (Z.leb_spec e2 (emax - prec)) as [_|Hbig].
    + cbn [in_range]. auto.
    + exfalso. unfold emax, prec in Hbig. lia.
  - exfalso. nia.
Qed.

Lemma pos_iter_xO (m d : positive) :
  Zpos (Pos.iter xO m d) = Zpos m * 2 ^ Zpos d.
Proof.
  induction d as [|d IH] using Pos.peano_ind.
  - cbn [Pos.iter]. rewrite Z.pow_1_r. lia.
  - rewrite Pos.iter_succ, Pos2Z.inj_succ, Z.pow_succ_r by lia.
    rewrite (Pos2Z.inj_xO (Pos.iter xO m d)), IH. ring.
Qed.

Lemma shl_align_spec (m : positive) (e e' : Z) :
  let r := shl_align m e e' in
  snd r = Z.min e e' /\ Zpos (fst r) = Zpos m * 2 ^ (e - snd r).
Proof.
  unfold shl_align. destruct (e' - e) as [|d|d] eqn:Hd; cbn [fst snd].
  - split; [lia|]. rewrite Z.sub_diag. lia.
  - split; [lia|]. rewrite Z.sub_diag. lia.
  - split; [lia|]. rewrite pos_iter_xO. f_equal. f_equal. lia.
Qed.

Lemma binary_round_range (s : bool) (m : positive) (e lo hi : Z) :
  e <= 0 -> 0 <= lo -> hi < 2 ^ 53 ->
  lo * 2 ^ (- e) <= Zpos m <= hi * 2 ^ (- e) ->
  in_range s lo hi (binary_round prec emax s m e).
Proof.
  intros He Hlo Hhi Hr. unfold binary_round.
  destruct (shl_align_spec m e (fexp prec emax (Zpos (digits2_pos m) + e)))
    as [Hz Hm].
  destruct (shl_align m e (fexp prec emax (Zpos (digits2_pos m) + e)))
    as [mz ez].
  cbn [fst snd] in Hz, Hm.
  assert (Hez : ez <= e) by lia.
  apply binary_round_aux_range; try assumption; try lia.
  assert (Hpow : 2 ^ (- ez) = 2 ^ (- e) * 2 ^ (e - ez)).
  { rewrite <- Z.pow_add_r by lia. f_equal. lia. }
  pose proof (pow2_pos (e - ez)).
  rewrite Hm, Hpow, !Z.mul_assoc. nia.
Qed.

Lemma binary_normalize_range (z e lo hi : Z) :
  e <= 0 -> 0 <= lo -> hi < 2 ^ 53 ->
  lo * 2 ^ (- e) <= z <= hi * 2 ^ (- e) ->
  in_range false lo hi (binary_normalize prec emax z e false).
Proof.
  intros He Hlo Hhi Hr. pose proof (pow2_pos (- e)).
  destruct z as [|m|m]; cbn [binary_normalize].
  - cbn [in_range]. split; [reflexivity|]. nia.
  - apply binary_round_range; assumption.
  - exfalso. nia.
Qed.

(** An integer below [2^53] converts exactly. *)
Lemma of_uword_exact (n : Z) :
  0 <= n < 2 ^ 53 -> in_range false n n (of_uword n).
Proof.
  intros Hn. unfold of_uword.
  apply binary_normalize_range; try lia.
Qed.

(** A double that is neither below [0.0] nor above [1.0] (and not NaN)
    is a zero or a positive double of value at most one. *)
Lemma unit_interval_cases (v : double) :
  is_double v = true -> is_nan v = false ->
  ltb v zero = false -> ltb one v = false ->
  (exists s, v = S754_zero s) \/
  (exists m e, v = S754_finite false m e /\ e <= -52 /\
               Zpos m <= 2 ^ (- e)).
Proof.
  intros Hv Hn H0 H1.
  destruct v as [s|s| |s m e]; try discriminate.
  - left. eauto.
  - destruct s; discriminate.
  - right. destruct s; [discriminate|]. exists m, e. split; [reflexivity|].
    unfold ltb, SFltb, one, SFcompare in H1.
    unfold is_double, valid_binary, bounded, canonical_mantissa in Hv.
    apply andb_prop in Hv. destruct Hv as [Hc _].
    apply Z.eqb_eq in Hc. rewrite fexp_eq in Hc.
    destruct (Z.compare_spec (-52) e) as [He|He|He]; try discriminate.
    + subst e. split; [lia|].
      change (Pos.compare_cont Eq 4503599627370496 m)
        with (Pos.compare 4503599627370496 m) in H1.
      destruct (Pos.compare_spec 4503599627370496 m) as [Hm|Hm|Hm];
        try discriminate.
      * subst m. (apply Z.leb_le; reflexivity).
      * (change (2 ^ (- -52)) with (Zpos 4503599627370496)).
        apply Pos2Z.pos_le_pos, Pos.lt_le_incl. exact Hm.
    + split; [lia|].
      destruct (digits2_bounds m) as [_ Hd].
      assert (2 ^ Zpos (digits2_pos m) <= 2 ^ (- e))
        by (apply Z.pow_le_mono_r; lia).
      lia.
Qed.

(** [1.0 - v] is between 0 and 1 for such a [v]. *)
Lemma sub_one_range (v : double) :
  is_double v = true -> is_nan v = false ->
  ltb v zero = false -> ltb one v = false ->
  in_range false 0 1 (sub one v).
Proof.
  intros Hv Hn H0 H1.
  destruct (unit_interval_cases v Hv Hn H0 H1)
    as [[s ->]|(m & e & -> & He & Hm)].
  - cbn [sub SFsub one in_range]. split; [reflexivity|].
    split; [lia|]. split; apply Z.leb_le; reflexivity.
  - unfold sub, one, SFsub. cbv beta iota zeta. cbn [cond_Zopp].
    replace (Z.min (-52) e) with e by lia.
    destruct (shl_align_spec 4503599627370496 (-52) e) as [Hs1 Hf1].
    destruct (shl_align_spec m e e) as [Hs2 Hf2].
    rewrite Hf1, Hf2, Hs1, Hs2.
    replace (Z.min (-52) e) with e by lia.
    rewrite Z.min_id, Z.sub_diag, Z.mul_1_r.
    change (Zpos 4503599627370496) with (2 ^ 52).
    rewrite <- Z.pow_add_r by lia.
    replace (52 + (-52 - e)) with (- e) by lia.
    apply binary_normalize_range; lia.
Qed.

(** The product of an exact integer and a double of the unit interval. *)
Lemma mul_range (x d : double) (n lo hi : Z) :
  0 <= n < 2 ^ 53 -> 0 <= lo -> hi <= 1 ->
  in_range false n n x -> in_range false lo hi d ->
  in_range false (lo * n) (hi * n) (mul x d).
Proof.
  intros Hn Hlo Hhi Hx Hd.
  destruct x as [sx| | |sx mx ex]; cbn [in_range] in Hx; try contradiction;
    destruct d as [sd| | |sd md ed]; cbn [in_range] in Hd;
    try contradiction.
  - destruct Hx as [-> Hx], Hd as [-> Hd].
    cbn [mul SFmul xorb in_range]. split; [reflexivity|]. nia.
  - destruct Hx as [-> Hx], Hd as (-> & Hed & Hd).
    cbn [mul SFmul xorb in_range]. split; [reflexivity|].
    pose proof (pow2_pos (- ed) ltac:(lia)). nia.
  - destruct Hx as (-> & Hex & Hx), Hd as [-> Hd].
    cbn [mul SFmul xorb in_range]. split; [reflexivity|]. nia.
  - destruct Hx as (-> & Hex & Hx), Hd as (-> & Hed & Hd).
    cbn [mul SFmul xorb].
    pose proof (pow2_pos (- ex) ltac:(lia)). pose proof (pow2_pos (- ed) ltac:(lia)).
    apply binary_round_aux_range; try nia.
    replace (- (ex + ed)) with (- ex + - ed) by lia.
    rewrite Z.pow_add_r, Pos2Z.inj_mul by lia. nia.
Qed.

Lemma round_half_away_range (m : positive) (e lo hi : Z) :
  e < 0 -> lo * 2 ^ (- e) <= Zpos m <= hi * 2 ^ (- e) ->
  lo <= round_half_away m e <= hi.
Proof.
  intros He Hr. unfold round_half_away.
  set (h := - e - 1) in *.
  assert (Hh : 0 <= h) by (unfold h; lia).
  replace (- e) with (Z.succ h) in * by (unfold h; lia).
  rewrite Z.pow_succ_r in * by exact Hh.
  pose proof (pow2_pos h Hh) as Hp.
  split.
  - apply Z.div_le_lower_bound; lia.
  - apply Z.lt_succ_r, Z.div_lt_upper_bound; lia.
Qed.

(** An exactly represented integer converts back to itself. *)
Lemma to_uword_exact (f : double) (r : Z) :
  0 <= r < 2 ^ 53 -> in_range false r r f -> to_uword f = Some r.
Proof.
  intros Hr Hf. assert (H64 : 2 ^ 53 < 2 ^ 64) by reflexivity.
  assert (Hok : (0 <=? r) && (r <? 2 ^ 64) = true).
  { apply andb_true_intro. split; [apply Z.leb_le|apply Z.ltb_lt]; lia. }
  destruct f as [s| | |s m e]; cbn [in_range] in Hf; try contradiction.
  - destruct Hf as [_ Hf]. assert (r = 0) by lia. subst r. reflexivity.
  - destruct Hf as (-> & He & Hm).
    assert (Hme : Zpos m = r * 2 ^ (- e)) by lia.
    unfold to_uword, trunc. cbn [cond_Zopp].
    destruct (Z.leb_spec 0 e) as [H0|H0].
    + assert (e = 0) by lia. subst e.
      change (2 ^ (- 0)) with 1 in Hme. change (2 ^ 0) with 1.
      rewrite Z.mul_1_r in *. rewrite Hme, Hok. reflexivity.
    + pose proof (pow2_pos (- e) ltac:(lia)).
      rewrite Hme, Z.div_mul, Hok by lia. reflexivity.
Qed.

Lemma round_range (p : double) (lo hi : Z) :
  0 <= lo -> hi < 2 ^ 53 -> in_range false lo hi p ->
  exists r, lo <= r <= hi /\ in_range false r r (round p).
Proof.
  intros Hlo Hhi Hp.
  destruct p as [s| | |s m e]; cbn [in_range] in Hp; try contradiction.
  - exists 0. cbn [round in_range]. intuition lia.
  - destruct Hp as (-> & He & Hm). cbn [round].
    destruct (Z.leb_spec 0 e) as [H0|H0].
    + assert (e = 0) by lia. subst e. change (2 ^ (- 0)) with 1 in Hm.
      exists (Zpos m). cbn [in_range]. change (2 ^ (- 0)) with 1. lia.
    + exists (round_half_away m e).
      pose proof (round_half_away_range m e lo hi H0 Hm) as Hr.
      split; [exact Hr|]. cbn [cond_Zopp].
      apply binary_normalize_range; try lia.
Qed.

Lemma to_uword_round_range (p : double) (lo hi : Z) :
  0 <= lo -> hi < 2 ^ 53 -> in_range false lo hi p ->
  exists k, to_uword (round p) = Some k /\ lo <= k <= hi.
Proof.
  intros Hlo Hhi Hp.
  destruct (round_range p lo hi Hlo Hhi Hp) as (r & Hr & Hin).
  exists r. split; [|exact Hr]. apply to_uword_exact; [lia|exact Hin].
Qed.

End DoubleFacts.

(* ================================================================== *)
(** ** Construction *)

Lemma n_cols_firstn {A} (m : list A) (k : Z) :
  0 <= k <= n_cols m -> n_cols (firstn (Z.to_nat k) m) = k.
Proof. unfold n_cols. rewrite length_firstn. lia. Qed.

Lemma n_cols_skipn {A} (m : list A) (k : Z) :
  0 <= k <= n_cols m -> n_cols (skipn (Z.to_nat k) m) = n_cols m - k.
Proof. unfold n_cols. rewrite length_skipn. lia. Qed.


Section Construction.

Variables Point Target Weight MLAlgorithm E : Type.

Local Abbreviation SimpleCV := (SimpleCV Point Target Weight MLAlgorithm).
Local Abbreviation Calculate :=
  (CalculateAndAssertNumberOfTrainingPoints Point Target Weight MLAlgorithm E).
Local Abbreviation InitSets :=
  (InitTrainingAndValidationSets Point Target Weight MLAlgorithm E).
Local Abbreviation construct := (construct Point Target Weight MLAlgorithm E).
Local Abbreviation with_data :=
  (@with_data Point Target Weight MLAlgorithm).

Lemma usub_1 (k : Z) : 0 < k <= 2 ^ 64 -> usub k 1 = k - 1.
Proof. intros Hk. unfold usub. apply Z.mod_small. lia. Qed.

Lemma GetSubset_prefix {A} (m : list A) (k : Z) :
  0 < k <= n_cols m -> k <= 2 ^ 64 ->
  GetSubset (E:=E) m 0 (usub k 1) = Returned (firstn (Z.to_nat k) m).
Proof.
  intros Hk H64. rewrite usub_1 by lia. unfold GetSubset.
  replace ((0 <=? 0) && (0 <=? k - 1) && (k - 1 <? n_cols m)) with true.
  - cbn [skipn Z.to_nat]. do 2 f_equal. lia.
  - symmetry. rewrite !andb_true_iff, !Z.leb_le, Z.ltb_lt. lia.
Qed.

Lemma GetSubset_suffix {A} (m : list A) (k n : Z) :
  n = n_cols m -> 0 <= k < n -> n <= 2 ^ 64 ->
  GetSubset (E:=E) m k (usub n 1) = Returned (skipn (Z.to_nat k) m).
Proof.
  intros Hn Hk H64. rewrite usub_1 by lia. unfold GetSubset.
  replace ((0 <=? k) && (k <=? n - 1) && (n - 1 <? n_cols m)) with true.
  - f_equal. apply firstn_all2. rewrite length_skipn.
    unfold n_cols in Hn. lia.
  - symmetry. rewrite !andb_true_iff, !Z.leb_le, Z.ltb_lt. lia.
Qed.

(** What a returning [CalculateAndAssertNumberOfTrainingPoints] has
    checked. *)
Lemma Calculate_Returned (this : SimpleCV) (v : Double.double) (k : Z) :
  Calculate this v = Returned k <->
  Double.ltb v Double.zero = false /\ Double.ltb Double.one v = false /\
  2 <= n_cols (xs this) /\
  trainingPoints v (n_cols (xs this)) = Some k /\
  k <> 0 /\ k <> n_cols (xs this).
Proof.
  unfold CalculateAndAssertNumberOfTrainingPoints, trainingPoints.
  destruct (Double.ltb v Double.zero); cbn [orb].
  { split; [discriminate|]. intros (H & _). discriminate. }
  destruct (Double.ltb Double.one v); cbn [orb].
  { split; [discriminate|]. intros (_ & H & _). discriminate. }
  destruct (Z.ltb_spec (n_cols (xs this)) 2) as [Hn|Hn].
  { split; [discriminate|]. intros (_ & _ & H & _). lia. }
  destruct (Double.to_uword _) as [t|].
  - destruct (Z.eqb_spec t 0) as [H0|H0]; cbn [orb].
    { split; [discriminate|]. intros (_ & _ & _ & H & ? & _).
      congruence. }
    destruct (Z.eqb_spec t (n_cols (xs this))) as [H1|H1].
    { split; [discriminate|]. intros (_ & _ & _ & H & _ & ?).
      congruence. }
    split.
    + intros H. inversion H. subst. repeat split; auto.
    + intros (_ & _ & _ & H & _). congruence.
  - split; [discriminate|]. intros (_ & _ & _ & H & _). discriminate.
Qed.

Lemma to_uword_bound (x : Double.double) (k : Z) :
  Double.to_uword x = Some k -> 0 <= k < 2 ^ 64.
Proof.
  unfold Double.to_uword. destruct (Double.trunc x) as [z|]; [|discriminate].
  destruct (Z.leb_spec 0 z); destruct (Z.ltb_spec z (2 ^ 64));
    cbn [andb]; try discriminate.
  intros Hs. inversion Hs. subst. lia.
Qed.

Lemma InitSets_Returned (this : SimpleCV) (v : Double.double) (k : Z) :
  Calculate this v = Returned k ->
  n_elem (ys this) = n_cols (xs this) ->
  0 < k < n_cols (xs this) -> n_cols (xs this) <= 2 ^ 64 ->
  InitSets this v = Returned (split_at this k).
Proof.
  intros Hc Hy Hk H64. unfold InitTrainingAndValidationSets.
  rewrite Hc. cbn [obind].
  rewrite !GetSubset_prefix by (unfold n_elem, n_cols in *; lia).
  cbn [obind].
  rewrite (GetSubset_suffix (xs this) k (n_cols (xs this)))
    by (auto; lia).
  cbn [obind].
  rewrite (GetSubset_suffix (ys this) k (n_cols (xs this)))
    by (unfold n_elem, n_cols in *; auto; lia).
  reflexivity.
Qed.

Lemma SFltb_asym (x y : spec_float) :
  SFltb x y = true -> SFltb y x = false.
Proof.
  unfold SFltb.
  destruct x as [sx|sx| |sx mx ex], y as [sy|sy| |sy my ey];
    cbn [SFcompare]; try discriminate; try reflexivity;
    try (destruct sx; try destruct sy; (discriminate || reflexivity)).
  destruct sx, sy; try discriminate; try reflexivity;
    rewrite (Z.compare_antisym ex ey);
    destruct (ex ?= ey); cbn [CompOpp]; try discriminate;
      try reflexivity;
    change (Pos.compare_cont Eq my mx) with (Pos.compare my mx);
    change (Pos.compare_cont Eq mx my) with (Pos.compare mx my);
    rewrite (Pos.compare_antisym mx my);
    destruct (mx ?= my)%positive; cbn [CompOpp]; try discriminate;
      reflexivity.
Qed.

Lemma construct_Returned (v : Double.double)
    (d : DataArgs Point Target Weight) (k : Z) :
  consistent d ->
  n_cols (data_xs d) <= 2 ^ 64 ->
  Double.ltb v Double.zero = false -> Double.ltb Double.one v = false ->
  trainingPoints v (n_cols (data_xs d)) = Some k ->
  0 < k < n_cols (data_xs d) ->
  construct v d =
  Returned
    (mkSimpleCV (data_xs d) (data_ys d)
       (match d with Unweighted _ _ => [] | WithWeights _ _ w => w end)
       (firstn (Z.to_nat k) (data_xs d)) (firstn (Z.to_nat k) (data_ys d))
       (skipn (Z.to_nat k) (data_xs d)) (skipn (Z.to_nat k) (data_ys d))
       (match d with
        | Unweighted _ _ => []
        | WithWeights _ _ w => firstn (Z.to_nat k) w
        end)
       None).
Proof.
  intros Hd H64 Hv0 Hv1 Hk Hr.
  destruct d as [x y|x y w]; cbn [consistent data_xs data_ys] in *;
    unfold construct.
  - unfold Init. cbn [xs ys].
    unfold AssertDataConsistency. rewrite Hd, Z.eqb_refl. cbn [obind].
    rewrite (InitSets_Returned _ v k); cbn [xs ys]; try assumption;
      try lia; [reflexivity|].
    apply Calculate_Returned. cbn [xs]. repeat split; auto; lia.
  - destruct Hd as [Hy Hw]. unfold InitWeighted. cbn [xs ys weights].
    unfold AssertDataConsistencyW, AssertDataConsistency.
    rewrite Hy, Hw, !Z.eqb_refl. cbn [obind].
    rewrite (InitSets_Returned _ v k); cbn [xs ys]; try assumption;
      try lia.
    + cbn [obind split_at trainingXs weights xs ys trainingYs
             validationXs validationYs modelPtr].
      assert (Hlen : n_cols (firstn (Z.to_nat k) x) = k).
      { unfold n_cols in *. rewrite length_firstn. lia. }
      rewrite Hlen, GetSubset_prefix by (unfold n_elem, n_cols in *; lia).
      reflexivity.
    + apply Calculate_Returned. cbn [xs]. repeat split; auto; lia.
Qed.

(** C1.  For a data set of [N >= 2] points (with as many targets, and
    weights when given) and a validation size [v] with [0 < v < 1] such
    that [k = round(N * (1 - v))] is strictly between [0] and [N], the
    constructor returns an object whose training set is the points
    [0 .. k-1] and whose validation set is the points [k .. N-1]; the
    sizes add up to [N] and training followed by validation is the
    original data. *)
Theorem C1_split_reconstructs (v : Double.double)
    (d : DataArgs Point Target Weight) (k : Z) :
  consistent d ->
  n_cols (data_xs d) < 2 ^ 64 ->
  2 <= n_cols (data_xs d) ->
  Double.ltb Double.zero v = true -> Double.ltb v Double.one = true ->
  trainingPoints v (n_cols (data_xs d)) = Some k ->
  0 < k < n_cols (data_xs d) ->
  exists this,
    construct v d = Returned this /\
    xs this = data_xs d /\ ys this = data_ys d /\
    trainingXs this = firstn (Z.to_nat k) (data_xs d) /\
    trainingYs this = firstn (Z.to_nat k) (data_ys d) /\
    validationXs this = skipn (Z.to_nat k) (data_xs d) /\
    validationYs this = skipn (Z.to_nat k) (data_ys d) /\
    n_cols (trainingXs this) = k /\
    n_cols (validationXs this) = n_cols (data_xs d) - k /\
    n_cols (trainingXs this) + n_cols (validationXs this)
      = n_cols (data_xs d) /\
    trainingXs this ++ validationXs this = data_xs d /\
    trainingYs this ++ validationYs this = data_ys d.
Proof.
  intros Hd H64 HN Hv0 Hv1 Hk Hr.
  eexists. split.
  - apply construct_Returned; try eassumption; try lia;
      apply SFltb_asym; assumption.
  - cbn [xs ys trainingXs trainingYs validationXs validationYs].
    assert (Hl1 : n_cols (firstn (Z.to_nat k) (data_xs d)) = k).
    { unfold n_cols in *. rewrite length_firstn. lia. }
    assert (Hl2 : n_cols (skipn (Z.to_nat k) (data_xs d))
                  = n_cols (data_xs d) - k).
    { unfold n_cols in *. rewrite length_skipn. lia. }
    rewrite !firstn_skipn, Hl1, Hl2.
    repeat split; try reflexivity. lia.
Qed.

(** For a data set of fewer than [2^53] points and a validation size that
    passed the first check, the number of training points is defined and
    at most the number of points. *)
Lemma trainingPoints_range (v : Double.double) (n : Z) :
  Double.is_double v = true -> Double.is_nan v = false ->
  Double.ltb v Double.zero = false -> Double.ltb Double.one v = false ->
  0 <= n < 2 ^ 53 ->
  exists k, trainingPoints v n = Some k /\ 0 <= k <= n.
Proof.
  intros Hv Hnan H0 H1 Hn.
  pose proof (DoubleFacts.sub_one_range v Hv Hnan H0 H1) as Hd.
  pose proof (DoubleFacts.of_uword_exact n Hn) as Hx.
  pose proof (DoubleFacts.mul_range _ _ n 0 1 Hn (Z.le_refl 0)
                (Z.le_refl 1) Hx Hd) as Hp.
  destruct (DoubleFacts.to_uword_round_range _ (0 * n) (1 * n)
              ltac:(lia) ltac:(lia) Hp) as (k & Hk & Hr).
  exists k. split; [exact Hk|lia].
Qed.

Lemma trainingPoints_nan (n : Z) : trainingPoints Double.nan n = None.
Proof.
  unfold trainingPoints, Double.nan.
  cbn [Double.sub SFsub Double.one].
  unfold Double.mul. destruct (Double.of_uword n); reflexivity.
Qed.

Lemma trainingPoints_not_nan (v : Double.double) (n k : Z) :
  trainingPoints v n = Some k -> Double.is_nan v = false.
Proof.
  destruct v; try reflexivity. fold Double.nan.
  rewrite trainingPoints_nan. discriminate.
Qed.

Lemma consistent_dec (d : DataArgs Point Target Weight) :
  {consistent d} + {~ consistent d}.
Proof.
  destruct d as [x y|x y w]; cbn [consistent].
  - apply Z.eq_dec.
  - destruct (Z.eq_dec (n_elem y) (n_cols x));
      destruct (Z.eq_dec (n_elem w) (n_cols x)); intuition.
Defined.

Lemma construct_inconsistent (v : Double.double)
    (d : DataArgs Point Target Weight) :
  ~ consistent d -> construct v d = Threw inconsistent_data.
Proof.
  intros Hd. destruct d as [x y|x y w]; cbn [consistent] in Hd;
    unfold construct, Init, InitWeighted, AssertDataConsistencyW,
      AssertDataConsistency; cbn [xs ys weights].
  - destruct (Z.eqb_spec (n_cols x) (n_elem y)); [|reflexivity].
    exfalso. apply Hd. congruence.
  - destruct (Z.eqb_spec (n_cols x) (n_elem y)); [|reflexivity].
    cbn [obind].
    destruct (Z.eqb_spec (n_elem w) (n_cols x)); [|reflexivity].
    exfalso. apply Hd. split; congruence.
Qed.

(** A constructor call on consistent data fails as
    [CalculateAndAssertNumberOfTrainingPoints] does. *)
Lemma construct_not_Returned (v : Double.double)
    (d : DataArgs Point Target Weight) :
  consistent d ->
  match Calculate (with_data d) v with
  | Returned _ => True
  | Threw e => construct v d = Threw e
  | Undefined u => construct v d = Undefined u
  end.
Proof.
  intros Hd. destruct d as [x y|x y w]; cbn [consistent] in Hd;
    unfold construct, Init, InitWeighted, AssertDataConsistencyW,
      AssertDataConsistency, InitTrainingAndValidationSets;
    cbn [xs ys weights trainingXs trainingYs validationXs validationYs
         trainingWeights modelPtr fresh with_data].
  - rewrite Hd, Z.eqb_refl. cbn [obind].
    destruct (Calculate _ v); cbn [obind]; auto.
  - destruct Hd as [Hy Hw]. rewrite Hy, Hw, !Z.eqb_refl. cbn [obind].
    destruct (Calculate _ v); cbn [obind]; auto.
Qed.

Lemma Calculate_Undefined (this : SimpleCV) (v : Double.double)
    (u : undefined_behaviour) :
  Calculate this v = Undefined u ->
  u = float_to_integer_out_of_range /\
  Double.ltb v Double.zero = false /\ Double.ltb Double.one v = false /\
  trainingPoints v (n_cols (xs this)) = None.
Proof.
  unfold CalculateAndAssertNumberOfTrainingPoints, trainingPoints.
  destruct (Double.ltb v Double.zero); [discriminate|].
  destruct (Double.ltb Double.one v); [discriminate|]. cbn [orb].
  destruct (_ <? _); [discriminate|].
  destruct (Double.to_uword _).
  - destruct (_ || _); discriminate.
  - intros H. inversion H. auto.
Qed.

Lemma xs_with_data (d : DataArgs Point Target Weight) :
  xs (with_data d) = data_xs d.
Proof. destruct d; reflexivity. Qed.

(** A data set of fewer than [2^53] points: a returned number of
    training points is strictly between [0] and the number of points. *)
Lemma Calculate_Returned_range (this : SimpleCV) (v : Double.double)
    (k : Z) :
  Double.is_double v = true ->
  n_cols (xs this) < 2 ^ 53 ->
  Calculate this v = Returned k ->
  2 <= n_cols (xs this) /\ 1 <= k <= n_cols (xs this) - 1 /\
  Double.ltb v Double.zero = false /\
  Double.ltb Double.one v = false /\
  trainingPoints v (n_cols (xs this)) = Some k.
Proof.
  intros Hv Hlt Hc.
  apply Calculate_Returned in Hc.
  destruct Hc as (H0 & H1 & H2 & Hk & Hk0 & HkN).
  pose proof (trainingPoints_not_nan _ _ _ Hk) as Hnan.
  destruct (trainingPoints_range v (n_cols (xs this)) Hv Hnan H0 H1)
    as (k' & Hk' & Hr); [lia|].
  assert (k' = k) by congruence. subst k'.
  repeat split; auto; lia.
Qed.

(** For a data set of fewer than [2^53] points with as many targets as
    points, once
    [CalculateAndAssertNumberOfTrainingPoints] has returned [k],
    [N >= 2] and [1 <= k <= N - 1], the subtractions [k - 1] and [N - 1]
    do not wrap, and every [GetSubset] call of the constructor (on [xs],
    on [ys], whose upper bound comes from [xs.n_cols], and on [weights])
    is inside the sequence it slices; the constructor never slices out of
    bounds. *)
Theorem subsets_in_bounds (v : Double.double)
    (d : DataArgs Point Target Weight) :
  Double.is_double v = true ->
  n_cols (data_xs d) < 2 ^ 53 ->
  (forall (this : SimpleCV) (k : Z),
      xs this = data_xs d ->
      n_elem (ys this) = n_cols (xs this) ->
      Calculate this v = Returned k ->
      2 <= n_cols (xs this) /\ 1 <= k <= n_cols (xs this) - 1 /\
      usub k 1 = k - 1 /\
      usub (n_cols (xs this)) 1 = n_cols (xs this) - 1 /\
      GetSubset (E:=E) (xs this) 0 (usub k 1)
        = Returned (firstn (Z.to_nat k) (xs this)) /\
      GetSubset (E:=E) (ys this) 0 (usub k 1)
        = Returned (firstn (Z.to_nat k) (ys this)) /\
      GetSubset (E:=E) (xs this) k (usub (n_cols (xs this)) 1)
        = Returned (skipn (Z.to_nat k) (xs this)) /\
      GetSubset (E:=E) (ys this) k (usub (n_cols (xs this)) 1)
        = Returned (skipn (Z.to_nat k) (ys this)) /\
      (forall w : list Weight,
          n_elem w = n_cols (xs this) ->
          GetSubset (E:=E) w 0
            (usub (n_cols (firstn (Z.to_nat k) (xs this))) 1)
          = Returned (firstn (Z.to_nat k) w))) /\
  construct v d <> Undefined subset_out_of_bounds.
Proof.
  intros Hv HN.
  assert (H64 : 2 ^ 53 < 2 ^ 64) by reflexivity.
  split.
  - intros this k Hx Hyx Hc.
    destruct (Calculate_Returned_range this v k) as (H2 & Hk & _);
      [exact Hv|rewrite Hx; exact HN|exact Hc|].
    rewrite <- Hx in HN.
    split; [exact H2|]. split; [exact Hk|].
    split; [apply usub_1; lia|]. split; [apply usub_1; lia|].
    split; [apply GetSubset_prefix; lia|].
    split; [apply GetSubset_prefix; unfold n_elem, n_cols in *; lia|].
    split; [apply GetSubset_suffix; auto; lia|].
    split;
      [apply GetSubset_suffix; unfold n_elem, n_cols in *; auto; lia|].
    intros w Hw.
    assert (Hlen : n_cols (firstn (Z.to_nat k) (xs this)) = k).
    { unfold n_cols in *. rewrite length_firstn. lia. }
    rewrite Hlen.
    apply GetSubset_prefix; unfold n_elem, n_cols in *; lia.
  - destruct (consistent_dec d) as [Hd|Hd].
    + pose proof (construct_not_Returned v d Hd) as Hnr.
      destruct (Calculate (with_data d) v) as [k|e|u] eqn:Hc.
      * destruct (Calculate_Returned_range (with_data d) v k Hv) as
          (H2 & Hk & H0 & H1 & Htp);
          [rewrite xs_with_data; exact HN|exact Hc|].
        rewrite xs_with_data in *.
        rewrite (construct_Returned v d k); try assumption; try lia.
        discriminate.
      * rewrite Hnr. discriminate.
      * rewrite Hnr. apply Calculate_Undefined in Hc.
        destruct Hc as [-> _]. discriminate.
    + rewrite construct_inconsistent by exact Hd. discriminate.
Qed.

Lemma trainingPoints_at_zero (s : bool) (n : Z) :
  0 <= n < 2 ^ 53 -> trainingPoints (S754_zero s) n = Some n.
Proof.
  intros Hn. unfold trainingPoints.
  pose proof (DoubleFacts.of_uword_exact n Hn) as Hx.
  assert (Hd : Double.in_range false 1 1
                 (Double.sub Double.one (S754_zero s))).
  { cbn [Double.sub SFsub Double.one Double.in_range].
    split; [reflexivity|]. split; [lia|].
    split; apply Z.leb_le; reflexivity. }
  pose proof (DoubleFacts.mul_range _ _ n 1 1 Hn ltac:(lia) ltac:(lia)
                Hx Hd) as Hp.
  destruct (DoubleFacts.to_uword_round_range _ (1 * n) (1 * n)
              ltac:(lia) ltac:(lia) Hp) as (k & Hk & Hr).
  rewrite Hk. f_equal. lia.
Qed.

Lemma trainingPoints_at_one (n : Z) :
  0 <= n < 2 ^ 53 -> trainingPoints Double.one n = Some 0.
Proof.
  intros Hn. unfold trainingPoints.
  pose proof (DoubleFacts.of_uword_exact n Hn) as Hx.
  assert (Hd : Double.in_range false 0 0
                 (Double.sub Double.one Double.one)).
  { replace (Double.sub Double.one Double.one) with (S754_zero false)
      by (vm_compute; reflexivity).
    cbn [Double.in_range]. split; [reflexivity|lia]. }
  pose proof (DoubleFacts.mul_range _ _ n 0 0 Hn ltac:(lia) ltac:(lia)
                Hx Hd) as Hp.
  destruct (DoubleFacts.to_uword_round_range _ (0 * n) (0 * n)
              ltac:(lia) ltac:(lia) Hp) as (k & Hk & Hr).
  rewrite Hk. f_equal. lia.
Qed.

(** A double that passes the first check and is not strictly between
    [0.0] and [1.0] is a zero or [1.0]. *)
Lemma boundary_cases (v : Double.double) :
  Double.is_double v = true -> Double.is_nan v = false ->
  Double.ltb v Double.zero = false -> Double.ltb Double.one v = false ->
  ~ (Double.ltb Double.zero v = true /\ Double.ltb v Double.one = true) ->
  (exists s, v = S754_zero s) \/ v = Double.one.
Proof.
  intros Hv Hn H0 H1 Hout.
  destruct (DoubleFacts.unit_interval_cases v Hv Hn H0 H1)
    as [Hz|(m & e & -> & He & Hm)]; [left; exact Hz|right].
  assert (Hlt : Double.ltb (S754_finite false m e) Double.one = false).
  { destruct (Double.ltb (S754_finite false m e) Double.one) eqn:Hl;
      [|reflexivity].
    exfalso. apply Hout. split; reflexivity. }
  unfold Double.ltb, SFltb, Double.one, SFcompare in Hlt.
  destruct (Z.compare_spec e (-52)) as [He'|He'|He']; try discriminate;
    [|lia].
  subst e.
  rewrite Pos.compare_cont_spec in Hlt.
  destruct (Pos.compare_spec m 4503599627370496) as [Hm'|Hm'|Hm'];
    cbn [Pos.switch_Eq] in Hlt; try discriminate.
  - subst m. reflexivity.
  - exfalso. change (2 ^ (- -52)) with (Zpos 4503599627370496) in Hm.
    apply Pos2Z.pos_lt_pos in Hm'.
    apply (Z.lt_irrefl (Zpos m)). eapply Z.le_lt_trans; eassumption.
Qed.

(** The constructor and invalid arguments, for a validation size that
    is a number and a data set of fewer than [2^53] points: an
    [invalid_argument] is thrown exactly when the validation size is
    not strictly between [0.0] and [1.0], or there are fewer than two
    points, or the number of training points is [0] or [N]. *)
Theorem construct_invalid_argument_iff (v : Double.double)
    (d : DataArgs Point Target Weight) :
  Double.is_double v = true -> Double.is_nan v = false ->
  consistent d ->
  n_cols (data_xs d) < 2 ^ 53 ->
  (is_invalid_argument (construct v d) = true <->
   ~ (Double.ltb Double.zero v = true /\ Double.ltb v Double.one = true)
   \/ n_cols (data_xs d) < 2
   \/ trainingPoints v (n_cols (data_xs d)) = Some 0
   \/ trainingPoints v (n_cols (data_xs d))
      = Some (n_cols (data_xs d))).
Proof.
  intros Hv Hnan Hd HN.
  pose proof (construct_not_Returned v d Hd) as Hnr.
  pose proof (xs_with_data d) as Hxs.
  destruct (Calculate (with_data d) v) as [k|e|u] eqn:Hc.
  - destruct (Calculate_Returned_range (with_data d) v k Hv)
      as (H2 & Hk & H0 & H1 & Htp);
      [rewrite Hxs; exact HN|exact Hc|].
    rewrite Hxs in *.
    rewrite (construct_Returned v d k); try assumption; try lia.
    cbn [is_invalid_argument]. split; [discriminate|].
    intros [Hout|[Hlt|[Hz|Hn]]]; exfalso.
    + destruct (boundary_cases v Hv Hnan H0 H1 Hout) as [[s ->]| ->].
      * rewrite trainingPoints_at_zero in Htp by lia.
        inversion Htp. lia.
      * rewrite trainingPoints_at_one in Htp by lia.
        inversion Htp. lia.
    + lia.
    + rewrite Htp in Hz. inversion Hz. lia.
    + rewrite Htp in Hn. inversion Hn. lia.
  - rewrite Hnr.
    unfold CalculateAndAssertNumberOfTrainingPoints in Hc.
    rewrite Hxs in Hc. fold (trainingPoints v (n_cols (data_xs d))) in Hc.
    destruct (Double.ltb v Double.zero) eqn:H0; cbn [orb] in Hc.
    { inversion Hc. cbn [is_invalid_argument]. split; [|reflexivity].
      intros _. left. intros [Hz _].
      apply SFltb_asym in Hz. unfold Double.ltb in H0. congruence. }
    destruct (Double.ltb Double.one v) eqn:H1; cbn [orb] in Hc.
    { inversion Hc. cbn [is_invalid_argument]. split; [|reflexivity].
      intros _. left. intros [_ Hz].
      apply SFltb_asym in Hz. unfold Double.ltb in H1. congruence. }
    destruct (Z.ltb_spec (n_cols (data_xs d)) 2) as [H2|H2].
    { inversion Hc. cbn [is_invalid_argument]. split; [|reflexivity].
      intros _. right. left. exact H2. }
    destruct (trainingPoints v (n_cols (data_xs d))) as [t|];
      [|discriminate].
    destruct (Z.eqb_spec t 0) as [Ht0|Ht0]; cbn [orb] in Hc.
    { inversion Hc. cbn [is_invalid_argument]. split; [|reflexivity].
      intros _. right. right. left. congruence. }
    destruct (Z.eqb_spec t (n_cols (data_xs d))) as [HtN|HtN];
      [|discriminate].
    inversion Hc. cbn [is_invalid_argument]. split; [|reflexivity].
    intros _. right. right. right. congruence.
  - exfalso. apply Calculate_Undefined in Hc.
    destruct Hc as (_ & H0 & H1 & Hc). rewrite Hxs in Hc.
    destruct (trainingPoints_range v (n_cols (data_xs d)) Hv Hnan H0 H1)
      as (k & Hk & _); [unfold n_cols in *; lia|].
    congruence.
Qed.

Lemma GetSubset_inv {A} (m : list A) (first last : Z) (r : list A) :
  GetSubset (E:=E) m first last = Returned r ->
  0 <= first <= last /\ last < n_cols m /\
  r = firstn (Z.to_nat (last - first + 1)) (skipn (Z.to_nat first) m).
Proof.
  unfold GetSubset.
  destruct (Z.leb_spec 0 first); destruct (Z.leb_spec first last);
    destruct (Z.ltb_spec last (n_cols m)); cbn [andb];
    try discriminate.
  intros Hr. inversion Hr. auto.
Qed.

(** What a returning constructor has built. *)
Lemma construct_inv (v : Double.double)
    (d : DataArgs Point Target Weight) (this : SimpleCV) :
  construct v d = Returned this ->
  consistent d /\ modelPtr this = None /\
  xs this = data_xs d /\ ys this = data_ys d /\
  exists k,
    Calculate (with_data d) v = Returned k /\
    1 <= k <= n_cols (data_xs d) /\
    trainingXs this = firstn (Z.to_nat k) (data_xs d) /\
    trainingYs this = firstn (Z.to_nat k) (data_ys d) /\
    GetSubset (E:=E) (data_xs d) k (usub (n_cols (data_xs d)) 1)
      = Returned (validationXs this) /\
    GetSubset (E:=E) (data_ys d) k (usub (n_cols (data_xs d)) 1)
      = Returned (validationYs this) /\
    match d with
    | Unweighted _ _ => weights this = [] /\ trainingWeights this = []
    | WithWeights _ _ w =>
        weights this = w /\ trainingWeights this = firstn (Z.to_nat k) w
    end.
Proof.
  intros Hc.
  destruct (consistent_dec d) as [Hd|Hd];
    [|rewrite construct_inconsistent in Hc by exact Hd; discriminate].
  split; [exact Hd|].
  pose proof (construct_not_Returned v d Hd) as Hnr.
  destruct (Calculate (with_data d) v) as [k|e|u] eqn:Hk;
    [|rewrite Hnr in Hc; discriminate..].
  clear Hnr.
  assert (Hk' := Hk). apply Calculate_Returned in Hk'.
  destruct Hk' as (_ & _ & _ & Htp & Hk0 & _).
  apply to_uword_bound in Htp.
  assert (Hu : usub k 1 = k - 1) by (apply usub_1; lia).
  destruct d as [x y|x y w]; cbn [consistent data_xs data_ys] in *;
    unfold construct, Init, InitWeighted,
      AssertDataConsistencyW, AssertDataConsistency,
      InitTrainingAndValidationSets in Hc;
    cbn [xs ys weights trainingXs trainingYs validationXs validationYs
         trainingWeights modelPtr fresh with_data] in Hc, Hk.
  - rewrite Hd, Z.eqb_refl in Hc. cbn [obind] in Hc.
    rewrite Hk in Hc. cbn [obind xs ys] in Hc. rewrite Hu in Hc.
    destruct (GetSubset x 0 (k - 1)) as [trX| |] eqn:H1;
      try discriminate. cbn [obind] in Hc.
    destruct (GetSubset y 0 (k - 1)) as [trY| |] eqn:H2;
      try discriminate. cbn [obind] in Hc.
    destruct (GetSubset x k _) as [vaX| |] eqn:H3;
      try discriminate. cbn [obind] in Hc.
    destruct (GetSubset y k _) as [vaY| |] eqn:H4;
      try discriminate. cbn [obind] in Hc.
    inversion Hc. subst this. clear Hc.
    cbn [xs ys weights trainingXs trainingYs validationXs validationYs
         trainingWeights modelPtr].
    apply GetSubset_inv in H1, H2.
    destruct H1 as (_ & Hl1 & ->), H2 as (_ & _ & ->).
    repeat split; try reflexivity.
    exists k. cbn [skipn Z.to_nat].
    replace (k - 1 - 0 + 1) with k by lia.
    repeat split; try reflexivity; try assumption; lia.
  - destruct Hd as [Hy Hw]. rewrite Hy, Hw, !Z.eqb_refl in Hc.
    cbn [obind] in Hc.
    rewrite Hk in Hc. cbn [obind xs ys] in Hc. rewrite Hu in Hc.
    destruct (GetSubset x 0 (k - 1)) as [trX| |] eqn:H1;
      try discriminate. cbn [obind] in Hc.
    destruct (GetSubset y 0 (k - 1)) as [trY| |] eqn:H2;
      try discriminate. cbn [obind] in Hc.
    destruct (GetSubset x k _) as [vaX| |] eqn:H3;
      try discriminate. cbn [obind] in Hc.
    destruct (GetSubset y k _) as [vaY| |] eqn:H4;
      try discriminate.
    cbn [obind weights trainingXs xs ys trainingYs validationXs
         validationYs modelPtr] in Hc.
    apply GetSubset_inv in H1, H2.
    destruct H1 as (_ & Hl1 & ->), H2 as (_ & _ & ->).
    cbn [skipn Z.to_nat] in Hc.
    replace (k - 1 - 0 + 1) with k in * by lia.
    assert (Hlen : n_cols (firstn (Z.to_nat k) x) = k)
      by (apply n_cols_firstn; lia).
    rewrite Hlen, Hu in Hc.
    destruct (GetSubset w 0 (k - 1)) as [trW| |] eqn:H5;
      try discriminate. cbn [obind] in Hc.
    inversion Hc. subst this. clear Hc.
    cbn [xs ys weights trainingXs trainingYs validationXs validationYs
         trainingWeights modelPtr].
    apply GetSubset_inv in H5. destruct H5 as (_ & _ & ->).
    cbn [skipn Z.to_nat]. replace (k - 1 - 0 + 1) with k by lia.
    repeat split; try reflexivity.
    exists k. repeat split; try reflexivity; try assumption; lia.
Qed.

End Construction.

(* ================================================================== *)
(** ** The constructor on concrete data *)

Lemma n_cols_zeros (n : Z) : 0 <= n -> n_cols (Demo.zeros n) = n.
Proof.
  intros Hn. unfold n_cols, Demo.zeros.
  rewrite repeat_length. apply Z2Nat.id. exact Hn.
Qed.

Lemma n_elem_zeros (n : Z) : 0 <= n -> n_elem (Demo.zeros n) = n.
Proof. exact (n_cols_zeros n). Qed.

(** The literals are binary64 numbers, and [0.3] and [0.1] are within
    half a unit in the last place of 3/10 and 1/10. *)
Lemma literals_are_doubles :
  forallb Double.is_double
    [Double.zero; Double.one; Double.half; Double.d0_3; Double.d0_1;
     Double.two_and_a_half; Double.minus_two_and_a_half; Double.tiny]
  = true /\
  Double.d0_3 = S754_finite false 5404319552844595 (-54) /\
  2 * Z.abs (10 * 5404319552844595 - 3 * 2 ^ 54) <= 10 /\
  Double.d0_1 = S754_finite false 7205759403792794 (-56) /\
  2 * Z.abs (10 * 7205759403792794 - 1 * 2 ^ 56) <= 10.
Proof.
  split; [vm_compute; reflexivity|].
  split; [reflexivity|]. split; [vm_compute; discriminate|].
  split; [reflexivity|]. vm_compute; discriminate.
Qed.

(** Three points and a validation size of [0.1]: the number of training
    points is 3, all of them, and the constructor throws. *)
Lemma construct_three_points_tenth :
  trainingPoints Double.d0_1 3 = Some 3 /\
  Demo.construct Double.d0_1 (Unweighted [0; 1; 2] [10; 11; 12])
  = Threw (invalid_argument
      "SimpleCV: the validationSize parameter is either too small or too big").
Proof. split; vm_compute; reflexivity. Qed.

(** A validation size of [2^-60] on [2^53 + 3] points: the conversion of
    the number of points to [double] rounds up to [2^53 + 4], which is
    also the number of training points. *)
Lemma trainingPoints_huge :
  trainingPoints Double.tiny (2 ^ 53 + 3) = Some (2 ^ 53 + 4).
Proof. vm_compute. reflexivity. Qed.

Lemma trainingPoints_big :
  trainingPoints Double.zero (2 ^ 53 + 1) = Some (2 ^ 53).
Proof. vm_compute. reflexivity. Qed.

(** The bound on the number of points is needed: for [2^53 + 3] points
    and the validation size [2^-60] every check of the constructor
    passes and the first [GetSubset] call is out of bounds. *)
Lemma huge_data_out_of_bounds :
  consistent Demo.huge_data /\
  2 <= n_cols (data_xs Demo.huge_data) < 2 ^ 64 /\
  Double.is_double Double.tiny = true /\
  Double.ltb Double.zero Double.tiny = true /\
  Double.ltb Double.tiny Double.one = true /\
  CalculateAndAssertNumberOfTrainingPoints Z Z Z Z string
    (with_data Demo.huge_data) Double.tiny = Returned (2 ^ 53 + 4) /\
  Demo.construct Double.tiny Demo.huge_data
  = Undefined subset_out_of_bounds.
Proof.
  assert (Hpos : 0 <= 2 ^ 53 + 3) by (vm_compute; discriminate).
  assert (Hc : CalculateAndAssertNumberOfTrainingPoints Z Z Z Z string
                 (with_data Demo.huge_data) Double.tiny
               = Returned (2 ^ 53 + 4)).
  { apply Calculate_Returned. cbn [with_data Demo.huge_data xs].
    rewrite (n_cols_zeros _ Hpos).
    split; [reflexivity|]. split; [reflexivity|].
    split; [vm_compute; discriminate|].
    split; [exact trainingPoints_huge|].
    split; vm_compute; discriminate. }
  split; [cbn [consistent Demo.huge_data]; reflexivity|].
  split.
  { cbn [data_xs Demo.huge_data]. rewrite (n_cols_zeros _ Hpos).
    split; [vm_compute; discriminate|vm_compute; reflexivity]. }
  split; [reflexivity|]. split; [reflexivity|]. split; [reflexivity|].
  split; [exact Hc|].
  unfold Demo.construct, Demo.huge_data, construct, Init.
  cbn [xs ys weights trainingXs trainingYs validationXs validationYs
       trainingWeights modelPtr fresh].
  unfold AssertDataConsistency. unfold n_elem at 1.
  fold (n_cols (Demo.zeros (2 ^ 53 + 3))). rewrite Z.eqb_refl.
  cbn [obind]. unfold InitTrainingAndValidationSets.
  cbn [with_data Demo.huge_data] in Hc. rewrite Hc. cbn [obind xs].
  unfold GetSubset at 1. rewrite (n_cols_zeros _ Hpos).
  replace ((0 <=? 0) && (0 <=? usub (2 ^ 53 + 4) 1)
           && (usub (2 ^ 53 + 4) 1 <? 2 ^ 53 + 3)) with false
    by (vm_compute; reflexivity).
  reflexivity.
Qed.

(** C2 (the code at the inputs where it departs from the claim).  NaN is
    not inside the interval (0,1), yet the first check lets it through:
    with two points the constructor reaches the conversion of
    [round(NaN)] to [size_t], which is undefined, and throws nothing.
    The validation size [0.0] passes the first check too and is only
    caught when the number of training points equals the number of
    points: with [2^53 + 1] points, which convert to the double [2^53],
    the constructor returns. *)
Theorem C2_unchecked_validation_size :
  (Double.ltb Double.zero Double.nan && Double.ltb Double.nan Double.one
   = false) /\
  CalculateAndAssertNumberOfTrainingPoints Z Z Z Z string
    (with_data (Unweighted [0; 1] [10; 11])) Double.nan
  = Undefined float_to_integer_out_of_range /\
  Demo.construct Double.nan (Unweighted [0; 1] [10; 11])
  = Undefined float_to_integer_out_of_range /\
  is_invalid_argument
    (Demo.construct Double.nan (Unweighted [0; 1] [10; 11])) = false /\
  (Double.ltb Double.zero Double.zero && Double.ltb Double.zero Double.one
   = false) /\
  is_invalid_argument (Demo.construct Double.zero Demo.big_data) = false /\
  exists this,
    Demo.construct Double.zero Demo.big_data = Returned this /\
    n_cols (trainingXs this) = 2 ^ 53 /\
    n_cols (validationXs this) = 1.
Proof.
  split; [reflexivity|]. split; [reflexivity|]. split; [reflexivity|].
  split; [reflexivity|]. split; [reflexivity|].
  assert (Hpos : 0 <= 2 ^ 53 + 1) by (vm_compute; discriminate).
  pose proof (construct_Returned Z Z Z Z string Double.zero Demo.big_data
                (2 ^ 53)) as Hr.
  cbn [consistent data_xs data_ys Demo.big_data] in Hr.
  rewrite (n_cols_zeros _ Hpos) in Hr.
  specialize (Hr (n_elem_zeros _ Hpos)).
  specialize (Hr ltac:(vm_compute; discriminate) eq_refl eq_refl
                 trainingPoints_big
                 ltac:(split; vm_compute; reflexivity)).
  unfold Demo.construct. rewrite Hr. split; [reflexivity|].
  eexists. split; [reflexivity|].
  cbn [trainingXs validationXs].
  assert (Hk : 0 <= 2 ^ 53 <= n_cols (Demo.zeros (2 ^ 53 + 1))).
  { rewrite (n_cols_zeros _ Hpos).
    split; vm_compute; discriminate. }
  rewrite (n_cols_firstn _ _ Hk), (n_cols_skipn _ _ Hk).
  rewrite (n_cols_zeros _ Hpos). split; reflexivity.
Qed.

(** C10 (the code at the input where it departs from the claim).  With
    the validation size NaN and two points the range check and the check
    on the number of points pass, and the number of training points is
    the result of the undefined conversion of NaN to [size_t]: the
    constructor has enforced no bound [1 <= k <= N - 1] when it comes to
    slice.  With the value [2^63], which the conversion gives on x86-64,
    both tests on the number of training points pass, [k - 1] exceeds the
    two columns of [xs], and the first [GetSubset] call is out of
    bounds. *)
Theorem C10_nan_bounds_not_enforced :
  Double.ltb Double.nan Double.zero || Double.ltb Double.one Double.nan
  = false /\
  (n_cols [0; 1] <? 2) = false /\
  trainingPoints Double.nan (n_cols [0; 1]) = None /\
  CalculateAndAssertNumberOfTrainingPoints Z Z Z Z string
    (with_data (Unweighted [0; 1] [10; 11])) Double.nan
  = Undefined float_to_integer_out_of_range /\
  Demo.construct Double.nan (Unweighted [0; 1] [10; 11])
  = Undefined float_to_integer_out_of_range /\
  (2 ^ 63 =? 0) || (2 ^ 63 =? n_cols [0; 1]) = false /\
  n_cols [0; 1] - 1 < usub (2 ^ 63) 1 /\
  GetSubset (E:=string) [0; 1] 0 (usub (2 ^ 63) 1)
  = Undefined subset_out_of_bounds.
Proof. repeat split; vm_compute; reflexivity. Qed.

(** C7.  The number of training points is
    [round(N * (1 - validationSize))], where [round] takes the nearest
    integer and halfway cases away from zero: 2.5 gives 3 and -2.5 gives
    -3.  With [N = 10] and [v = 0.3] it is 7 (training points 0-6,
    validation points 7-9), with [N = 4] and [v = 0.5] it is 2, with
    [N = 2] and [v = 0.5] it is 1 and the constructor returns; with
    [N = 5] and [v = 0.5] the halfway case 2.5 gives 3. *)
Theorem C7_training_point_count :
  (forall (Point Target Weight MLAlgorithm E : Type)
          (this : SimpleCV Point Target Weight MLAlgorithm)
          (v : Double.double) (k : Z),
      CalculateAndAssertNumberOfTrainingPoints Point Target Weight
        MLAlgorithm E this v = Returned k ->
      Double.to_uword
        (Double.round
           (Double.mul (Double.of_uword (n_cols (xs this)))
                       (Double.sub Double.one v))) = Some k) /\
  (forall (m : positive) (e n : Z),
      e < 0 -> Zpos m = (2 * n + 1) * 2 ^ (- e - 1) ->
      Double.round_half_away m e = n + 1) /\
  (forall (m : positive) (e : Z),
      e < 0 ->
      2 * Z.abs (Double.round_half_away m e * 2 ^ (- e) - Zpos m)
      <= 2 ^ (- e)) /\
  Double.trunc (Double.round Double.two_and_a_half) = Some 3 /\
  Double.trunc (Double.round Double.minus_two_and_a_half) = Some (-3) /\
  trainingPoints Double.d0_3 10 = Some 7 /\
  Demo.construct Double.d0_3 (Unweighted Demo.ten_xs Demo.ten_ys)
  = Returned Demo.cv10 /\
  trainingPoints Double.half 4 = Some 2 /\
  Demo.construct Double.half (Unweighted [0; 1; 2; 3] [10; 11; 12; 13])
  = Returned Demo.cv4 /\
  trainingPoints Double.half 2 = Some 1 /\
  Demo.construct Double.half (Unweighted [0; 1] [10; 11])
  = Returned Demo.cv2 /\
  trainingPoints Double.half 5 = Some 3.
Proof.
  split.
  { intros Point Target Weight MLAlgorithm E this v k Hc.
    apply Calculate_Returned in Hc. exact (proj1 (proj2 (proj2 (proj2 Hc)))). }
  split.
  { intros m e n He Hm. unfold Double.round_half_away.
    set (h := - e - 1) in *.
    assert (Hh : 0 <= h) by (unfold h; lia).
    replace (- e) with (Z.succ h) by (unfold h; lia).
    rewrite Z.pow_succ_r by exact Hh.
    pose proof (DoubleFacts.pow2_pos h Hh) as Hp.
    rewrite Hm.
    replace ((2 * n + 1) * 2 ^ h + 2 ^ h) with ((n + 1) * (2 * 2 ^ h))
      by ring.
    apply Z.div_mul. lia. }
  split.
  { intros m e He. unfold Double.round_half_away.
    set (h := - e - 1) in *.
    assert (Hh : 0 <= h) by (unfold h; lia).
    replace (- e) with (Z.succ h) by (unfold h; lia).
    rewrite Z.pow_succ_r by exact Hh.
    pose proof (DoubleFacts.pow2_pos h Hh) as Hp.
    pose proof (Z.div_mod (Zpos m + 2 ^ h) (2 * 2 ^ h) ltac:(lia)) as Hdm.
    pose proof (Z.mod_pos_bound (Zpos m + 2 ^ h) (2 * 2 ^ h) ltac:(lia))
      as Hb.
    lia. }
  repeat split; vm_compute; reflexivity.
Qed.

Lemma C7_training_point_count_witness :
  Double.to_uword
    (Double.round
       (Double.mul (Double.of_uword (n_cols (xs Demo.cv4)))
                   (Double.sub Double.one Double.half))) = Some 2 /\
  Double.round_half_away 5 (-1) = 3.
Proof.
  split.
  - apply (proj1 C7_training_point_count Z Z Z Z string Demo.cv4
             Double.half 2).
    vm_compute. reflexivity.
  - apply (proj1 (proj2 C7_training_point_count) 5%positive (-1) 2).
    + reflexivity.
    + reflexivity.
Defined.

Lemma C1_split_reconstructs_witness :
  exists this,
    Demo.construct Double.half (Unweighted [0; 1; 2; 3] [10; 11; 12; 13])
    = Returned this /\
    trainingXs this = [0; 1] /\ validationXs this = [2; 3] /\
    trainingXs this ++ validationXs this = [0; 1; 2; 3].
Proof.
  destruct (C1_split_reconstructs Z Z Z Z string Double.half
              (Unweighted [0; 1; 2; 3] [10; 11; 12; 13]) 2)
    as (this & Hc & _ & _ & HtX & _ & HvX & _ & _ & _ & _ & Happ & _).
  - reflexivity.
  - vm_compute. reflexivity.
  - vm_compute. discriminate.
  - reflexivity.
  - reflexivity.
  - vm_compute. reflexivity.
  - split; vm_compute; reflexivity.
  - exists this. repeat split; assumption.
Defined.

Lemma subsets_in_bounds_witness :
  GetSubset (E:=string) [0; 1; 2; 3] 2 (usub 4 1) = Returned [2; 3] /\
  Demo.construct Double.half (Unweighted [0; 1; 2; 3] [10; 11; 12; 13])
  <> Undefined subset_out_of_bounds.
Proof.
  destruct (subsets_in_bounds Z Z Z Z string Double.half
              (Unweighted [0; 1; 2; 3] [10; 11; 12; 13]))
    as [Hs Hc].
  - reflexivity.
  - vm_compute. reflexivity.
  - split; [|exact Hc].
    destruct (Hs (with_data (Unweighted [0; 1; 2; 3] [10; 11; 12; 13])) 2)
      as (_ & _ & _ & _ & _ & _ & Hv & _).
    + reflexivity.
    + reflexivity.
    + vm_compute. reflexivity.
    + exact Hv.
Defined.

(* ================================================================== *)
(** ** Evaluation *)

Section Evaluation.

Variables Point Target Weight MLAlgorithm Args E : Type.
Variable TrainUnweighted :
  list Point -> list Target -> Args -> E + MLAlgorithm.
Variable TrainWeighted :
  list Point -> list Target -> list Weight -> Args -> E + MLAlgorithm.
Variable MetricEvaluate :
  MLAlgorithm -> list Point -> list Target -> E + Double.double.
Variable SupportsWeights : bool.

Local Abbreviation SimpleCV := (SimpleCV Point Target Weight MLAlgorithm).
Local Abbreviation Evaluate :=
  (Evaluate Point Target Weight MLAlgorithm Args E
     TrainUnweighted TrainWeighted MetricEvaluate SupportsWeights).
Local Abbreviation Model := (Model Point Target Weight MLAlgorithm Args E).
Local Abbreviation reachable :=
  (reachable Point Target Weight MLAlgorithm Args E
     TrainUnweighted TrainWeighted MetricEvaluate SupportsWeights).
Local Abbreviation trained :=
  (trained Point Target Weight MLAlgorithm Args E
     TrainUnweighted TrainWeighted SupportsWeights).
Local Abbreviation training_call :=
  (training_call Point Target Weight MLAlgorithm Args SupportsWeights).
Local Abbreviation construct :=
  (construct Point Target Weight MLAlgorithm E).

(** [Evaluate] in one piece. *)
Lemma Evaluate_unfold (args : Args) (this : SimpleCV) :
  Evaluate args this =
  match trained this args with
  | inl e => (Threw (external e), this, [training_call this args])
  | inr m =>
      (match MetricEvaluate m (validationXs this) (validationYs this) with
       | inl e => Threw (external e)
       | inr score => Returned score
       end,
       with_model this m,
       [training_call this args;
        CallMetric m (validationXs this) (validationYs this)])
  end.
Proof.
  unfold Evaluate, TrainAndEvaluate, trained,
    training_call.
  destruct SupportsWeights; cbn [andb].
  - unfold TrainAndEvaluate_weighted, mbind, read, TrainW, Train, extern,
      assign_modelPtr, deref_modelPtr, Metric_Evaluate.
    destruct (0 <? n_elem (trainingWeights this)).
    + destruct (TrainWeighted _ _ _ args) as [e|m]; [reflexivity|].
      cbn [modelPtr xs ys weights trainingXs trainingYs validationXs
           validationYs trainingWeights app].
      destruct (MetricEvaluate m _ _); reflexivity.
    + destruct (TrainUnweighted _ _ args) as [e|m]; [reflexivity|].
      cbn [modelPtr xs ys weights trainingXs trainingYs validationXs
           validationYs trainingWeights app].
      destruct (MetricEvaluate m _ _); reflexivity.
  - unfold TrainAndEvaluate_unweighted, mbind, read, Train, extern,
      assign_modelPtr, deref_modelPtr, Metric_Evaluate.
    destruct (TrainUnweighted _ _ args) as [e|m]; [reflexivity|].
    cbn [modelPtr xs ys weights trainingXs trainingYs validationXs
         validationYs trainingWeights app].
    destruct (MetricEvaluate m _ _); reflexivity.
Qed.

Lemma same_split_refl (this : SimpleCV) : same_split this this.
Proof. unfold same_split. repeat split. Qed.

Lemma same_split_trans (a b c : SimpleCV) :
  same_split a b -> same_split b c -> same_split a c.
Proof. unfold same_split. intuition congruence. Qed.

Lemma same_split_with_model (this : SimpleCV) (m : MLAlgorithm) :
  same_split this (with_model this m).
Proof. unfold same_split. repeat split. Qed.

Lemma Evaluate_same_split (args : Args) (this : SimpleCV) :
  same_split this (after (Evaluate args this)).
Proof.
  rewrite Evaluate_unfold. destruct (trained this args) as [e|m].
  - apply same_split_refl.
  - apply same_split_with_model.
Qed.

Lemma Model_after (this : SimpleCV) : after (Model this) = this.
Proof. unfold Model. destruct (modelPtr this); reflexivity. Qed.

Lemma reachable_same_split (this0 this : SimpleCV) :
  reachable this0 this -> same_split this0 this.
Proof.
  induction 1 as [|this args _ IH|this _ IH].
  - apply same_split_refl.
  - eapply same_split_trans; [exact IH|apply Evaluate_same_split].
  - rewrite Model_after. exact IH.
Qed.

Lemma trained_same_split (a b : SimpleCV) (args : Args) :
  same_split a b ->
  trained b args = trained a args /\
  training_call b args = training_call a args.
Proof.
  unfold same_split, trained, training_call.
  intros (_ & _ & _ & -> & -> & _ & _ & ->). split; reflexivity.
Qed.

(** After a constructor call with weights the training weights are not
    empty; after one without weights they are. *)
Lemma construct_trainingWeights (v : Double.double)
    (d : DataArgs Point Target Weight) (this : SimpleCV) :
  construct v d = Returned this ->
  (0 <? n_elem (trainingWeights this)) =
  match d with Unweighted _ _ => false | WithWeights _ _ _ => true end.
Proof.
  intros Hc. apply construct_inv in Hc.
  destruct Hc as (Hd & _ & _ & _ & k & _ & Hk & _ & _ & _ & _ & Hw).
  destruct d as [x y|x y w]; cbn [consistent data_xs] in *.
  - destruct Hw as [_ ->]. reflexivity.
  - destruct Hw as [_ ->]. destruct Hd as [_ Hd].
    apply Z.ltb_lt. unfold n_elem, n_cols in *.
    rewrite length_firstn. lia.
Qed.

(** C3, amended.  When the algorithm supports weights and the data set
    was constructed with weights, every [Evaluate] call, whatever calls
    came before, invokes the training routine in its weighted form on
    [(trainingXs, trainingYs, trainingWeights, args)] as the constructor
    set them; for a data set constructed without weights every call
    invokes the unweighted form.  On any object the form is chosen at the
    call by the static flag and the test [trainingWeights.n_elem > 0]; an
    algorithm that does not support weights is always trained in the
    unweighted form, also on data constructed with weights. *)
Theorem C3_training_form_fixed_at_construction :
  (forall (v : Double.double) (x : list Point) (y : list Target)
          (w : list Weight) (this0 this : SimpleCV) (args : Args),
      SupportsWeights = true ->
      construct v (WithWeights x y w) = Returned this0 ->
      reachable this0 this ->
      trained this args
      = TrainWeighted (trainingXs this0) (trainingYs this0)
                      (trainingWeights this0) args /\
      calls (Evaluate args this)
      = CallTrainWeighted (trainingXs this0) (trainingYs this0)
                          (trainingWeights this0) args
        :: match TrainWeighted (trainingXs this0) (trainingYs this0)
                               (trainingWeights this0) args with
           | inl _ => []
           | inr m =>
               [CallMetric m (validationXs this0) (validationYs this0)]
           end) /\
  (forall (v : Double.double) (x : list Point) (y : list Target)
          (this0 this : SimpleCV) (args : Args),
      construct v (Unweighted x y) = Returned this0 ->
      reachable this0 this ->
      trained this args
      = TrainUnweighted (trainingXs this0) (trainingYs this0) args /\
      calls (Evaluate args this)
      = CallTrain (trainingXs this0) (trainingYs this0) args
        :: match TrainUnweighted (trainingXs this0) (trainingYs this0)
                                 args with
           | inl _ => []
           | inr m =>
               [CallMetric m (validationXs this0) (validationYs this0)]
           end) /\
  (forall (this : SimpleCV) (args : Args),
      exists rest,
        calls (Evaluate args this)
        = (if SupportsWeights && (0 <? n_elem (trainingWeights this))
           then CallTrainWeighted (trainingXs this) (trainingYs this)
                                  (trainingWeights this) args
           else CallTrain (trainingXs this) (trainingYs this) args)
          :: rest /\
        forall c, In c rest ->
                  exists m,
                    c = CallMetric m (validationXs this)
                                   (validationYs this)) /\
  (SupportsWeights = false ->
   forall (this : SimpleCV) (args : Args),
     trained this args
     = TrainUnweighted (trainingXs this) (trainingYs this) args /\
     calls (Evaluate args this)
     = CallTrain (trainingXs this) (trainingYs this) args
       :: match TrainUnweighted (trainingXs this) (trainingYs this) args with
          | inl _ => []
          | inr m => [CallMetric m (validationXs this) (validationYs this)]
          end).
Proof.
  split; [|split; [|split]].
  - intros v x y w this0 this args Hsw Hc Hr.
    pose proof (construct_trainingWeights _ _ _ Hc) as Hw.
    pose proof (reachable_same_split _ _ Hr) as Hs.
    destruct (trained_same_split _ _ args Hs) as [Ht Hcall].
    assert (Ht0 : trained this0 args
                  = TrainWeighted (trainingXs this0) (trainingYs this0)
                                  (trainingWeights this0) args).
    { unfold trained. rewrite Hsw, Hw. reflexivity. }
    assert (Hc0 : training_call this0 args
                  = CallTrainWeighted (trainingXs this0) (trainingYs this0)
                                      (trainingWeights this0) args).
    { unfold training_call. rewrite Hsw, Hw. reflexivity. }
    split; [congruence|].
    rewrite Evaluate_unfold, Ht, Hcall, Hc0, Ht0.
    destruct Hs as (_ & _ & _ & _ & _ & <- & <- & _).
    destruct (TrainWeighted _ _ _ args); reflexivity.
  - intros v x y this0 this args Hc Hr.
    pose proof (construct_trainingWeights _ _ _ Hc) as Hw.
    pose proof (reachable_same_split _ _ Hr) as Hs.
    destruct (trained_same_split _ _ args Hs) as [Ht Hcall].
    assert (Ht0 : trained this0 args
                  = TrainUnweighted (trainingXs this0) (trainingYs this0)
                                    args).
    { unfold trained. rewrite Hw, andb_false_r. reflexivity. }
    assert (Hc0 : training_call this0 args
                  = CallTrain (trainingXs this0) (trainingYs this0) args).
    { unfold training_call. rewrite Hw, andb_false_r.
      reflexivity. }
    split; [congruence|].
    rewrite Evaluate_unfold, Ht, Hcall, Hc0, Ht0.
    destruct Hs as (_ & _ & _ & _ & _ & <- & <- & _).
    destruct (TrainUnweighted _ _ args); reflexivity.
  - intros this args. rewrite Evaluate_unfold.
    fold (training_call this args).
    destruct (trained this args) as [err|m]; cbn [calls snd].
    + exists []. split; [reflexivity|]. intros c [].
    + exists [CallMetric m (validationXs this) (validationYs this)].
      split; [reflexivity|]. intros c [<-|[]]. exists m. reflexivity.
  - intros Hsw this args.
    assert (Ht : trained this args
                 = TrainUnweighted (trainingXs this) (trainingYs this) args)
      by (unfold trained; rewrite Hsw; reflexivity).
    assert (Hcall : training_call this args
                    = CallTrain (trainingXs this) (trainingYs this) args)
      by (unfold training_call; rewrite Hsw; reflexivity).
    split; [exact Ht|].
    rewrite Evaluate_unfold, Ht, Hcall.
    destruct (TrainUnweighted _ _ args); reflexivity.
Qed.

(** C4, amended.  A failed [Evaluate] call is one of two: the training
    routine raised, and then the object is unchanged (the stored model
    is the one from before, or still none); or the metric raised, and
    then the stored model is the model that this call has just trained
    while nothing else has changed. *)
Theorem C4_failed_Evaluate (args : Args) (this : SimpleCV)
    (e : exn E) :
  result (Evaluate args this) = Threw e ->
  (exists err,
      trained this args = inl err /\ e = external err /\
      after (Evaluate args this) = this) \/
  (exists m err,
      trained this args = inr m /\
      MetricEvaluate m (validationXs this) (validationYs this) = inl err /\
      e = external err /\
      after (Evaluate args this) = with_model this m /\
      result (Model (after (Evaluate args this))) = Returned m).
Proof.
  rewrite Evaluate_unfold.
  destruct (trained this args) as [err|m]; cbn [result after fst snd].
  - intros H. inversion H. left. exists err. auto.
  - destruct (MetricEvaluate m _ _) as [err|score] eqn:Hm;
      [|discriminate].
    intros H. inversion H. right. exists m, err.
    repeat split; auto.
Qed.

(** C5, amended.  [Model()] throws the logic error for the uninitialized
    model exactly when [modelPtr] is null: on a newly constructed
    object, and as long as no [Evaluate] call has got a model from the
    training routine.  After an [Evaluate] call whose training step has
    succeeded, in particular after a successful [Evaluate], it returns
    the model trained by that call. *)
Theorem C5_Model_access :
  (forall (v : Double.double) (d : DataArgs Point Target Weight)
          (this : SimpleCV),
      construct v d = Returned this ->
      result (Model this) = Threw (logic_error uninitialized)) /\
  (forall (this : SimpleCV),
      result (Model this) = Threw (logic_error uninitialized) <->
      modelPtr this = None) /\
  (forall (this : SimpleCV) (args : Args) (err : E),
      modelPtr this = None -> trained this args = inl err ->
      result (Model (after (Evaluate args this)))
      = Threw (logic_error uninitialized)) /\
  (forall (this : SimpleCV) (args : Args) (m : MLAlgorithm),
      trained this args = inr m ->
      result (Model (after (Evaluate args this))) = Returned m) /\
  (forall (this : SimpleCV) (args : Args) (score : Double.double),
      result (Evaluate args this) = Returned score ->
      exists m,
        trained this args = inr m /\
        result (Model (after (Evaluate args this))) = Returned m).
Proof.
  split.
  { intros v d this Hc. apply construct_inv in Hc.
    destruct Hc as (_ & Hm & _). unfold Model.
    rewrite Hm. reflexivity. }
  split.
  { intros this. unfold Model.
    destruct (modelPtr this); cbn [result throw ret fst];
      split; intros H; try discriminate; reflexivity. }
  split.
  { intros this args err Hm Ht. rewrite Evaluate_unfold, Ht.
    cbn [after fst snd]. unfold Model. rewrite Hm.
    reflexivity. }
  split.
  { intros this args m Ht. rewrite Evaluate_unfold, Ht. reflexivity. }
  intros this args score. rewrite Evaluate_unfold.
  destruct (trained this args) as [err|m]; [discriminate|].
  intros _. exists m. split; reflexivity.
Qed.

(** C6.  The evaluator is in one of two states, [NoModel] ([modelPtr]
    null) or [HasModel].  A successful [Evaluate] ends in [HasModel] with
    the model it has trained, from either state; no [Evaluate] or
    [Model] call, successful or not, leads from [HasModel] to
    [NoModel]; after two successful [Evaluate] calls [Model()] returns
    the model trained by the second. *)
Theorem C6_state_machine :
  (forall this : SimpleCV,
      (state_of this = NoModel <-> modelPtr this = None) /\
      (state_of this = HasModel <-> exists m, modelPtr this = Some m)) /\
  (forall (v : Double.double) (d : DataArgs Point Target Weight)
          (this : SimpleCV),
      construct v d = Returned this -> state_of this = NoModel) /\
  (forall (this : SimpleCV) (args : Args) (score : Double.double),
      result (Evaluate args this) = Returned score ->
      exists m,
        trained this args = inr m /\
        state_of (after (Evaluate args this)) = HasModel /\
        modelPtr (after (Evaluate args this)) = Some m) /\
  (forall (this : SimpleCV) (args : Args),
      state_of this = HasModel ->
      state_of (after (Evaluate args this)) = HasModel /\
      state_of (after (Model this)) = HasModel) /\
  (forall this0 this : SimpleCV,
      reachable this0 this ->
      state_of this0 = HasModel -> state_of this = HasModel) /\
  (forall (this : SimpleCV) (args1 args2 : Args)
          (score1 score2 : Double.double),
      result (Evaluate args1 this) = Returned score1 ->
      result (Evaluate args2 (after (Evaluate args1 this)))
      = Returned score2 ->
      exists m2,
        trained (after (Evaluate args1 this)) args2 = inr m2 /\
        result
          (Model (after (Evaluate args2 (after (Evaluate args1 this)))))
        = Returned m2).
Proof.
  assert (Hstep : forall (this : SimpleCV) (args : Args),
             state_of this = HasModel ->
             state_of (after (Evaluate args this)) = HasModel).
  { intros this args Hs. rewrite Evaluate_unfold.
    destruct (trained this args); [exact Hs|reflexivity]. }
  split.
  { intros this. unfold state_of.
    destruct (modelPtr this) as [m|]; repeat split;
      try discriminate; try reflexivity; eauto.
    intros [m Hm]. discriminate. }
  split.
  { intros v d this Hc. apply construct_inv in Hc.
    destruct Hc as (_ & Hm & _). unfold state_of. rewrite Hm.
    reflexivity. }
  split.
  { intros this args score. rewrite Evaluate_unfold.
    destruct (trained this args) as [err|m]; [discriminate|].
    intros _. exists m. repeat split. }
  split.
  { intros this args Hs. split; [apply Hstep; exact Hs|].
    rewrite Model_after. exact Hs. }
  split.
  { intros this0 this Hr Hs.
    induction Hr as [|this args _ IH|this _ IH].
    - exact Hs.
    - apply Hstep. exact IH.
    - rewrite Model_after. exact IH. }
  intros this args1 args2 score1 score2 _.
  set (this1 := after (Evaluate args1 this)).
  rewrite Evaluate_unfold.
  destruct (trained this1 args2) as [err|m2]; [discriminate|].
  intros _. exists m2. split; reflexivity.
Qed.

(** C9.  [Evaluate] gives a score of type [double] or propagates the
    error of the training routine or of the metric; it changes no data
    member but [modelPtr]: the data and the partitions set by the
    constructor are the same after every call and after any sequence of
    calls; the only external calls are one training call and at most
    one metric call, on those partitions. *)
Theorem C9_Evaluate_frame :
  (forall (args : Args) (this : SimpleCV),
      same_split this (after (Evaluate args this)) /\
      ((exists score : Double.double,
           result (Evaluate args this) = Returned score) \/
       (exists err : E,
           result (Evaluate args this) = Threw (external err))) /\
      (calls (Evaluate args this) = [training_call this args] \/
       exists m,
         calls (Evaluate args this)
         = [training_call this args;
            CallMetric m (validationXs this) (validationYs this)])) /\
  (forall this0 this : SimpleCV,
      reachable this0 this -> same_split this0 this).
Proof.
  split; [|exact reachable_same_split].
  intros args this. split; [apply Evaluate_same_split|].
  rewrite Evaluate_unfold.
  destruct (trained this args) as [err|m]; cbn [result calls fst snd].
  - split; [right; eauto|left; reflexivity].
  - split; [|right; eauto].
    destruct (MetricEvaluate m _ _) as [err|score]; eauto.
Qed.

(** C8.  After a constructor call with weights that returned, the
    training weights are the weights [0 .. k-1], exactly as many as
    there are training points.  The validation sets do not depend on
    the weights: the constructor call without weights builds the same
    training and validation sets, and every metric call of every later
    [Evaluate] receives the model and these validation sets only. *)
Theorem C8_training_weights (v : Double.double) (x : list Point)
    (y : list Target) (w : list Weight) (this : SimpleCV) :
  construct v (WithWeights x y w) = Returned this ->
  n_elem (trainingWeights this) = n_cols (trainingXs this) /\
  (exists k,
      1 <= k /\ n_cols (trainingXs this) = k /\
      trainingXs this = firstn (Z.to_nat k) x /\
      trainingWeights this = firstn (Z.to_nat k) w) /\
  construct v (Unweighted x y)
  = Returned (mkSimpleCV x y [] (trainingXs this) (trainingYs this)
                (validationXs this) (validationYs this) [] None) /\
  (forall (this' : SimpleCV) (args : Args) (c : call _ _ _ _ _),
      reachable this this' ->
      In c (calls (Evaluate args this')) ->
      c = training_call this args \/
      exists m, c = CallMetric m (validationXs this) (validationYs this)).
Proof.
  intros Hc. assert (Hinv := Hc). apply construct_inv in Hinv.
  destruct Hinv as ([Hy Hw] & _ & Hxs & Hys & k & Hk & Hkr & HtX & HtY
                    & HvX & HvY & _ & HtW).
  cbn [data_xs data_ys] in *.
  assert (HlX : n_cols (trainingXs this) = k)
    by (rewrite HtX; apply n_cols_firstn; lia).
  split.
  { rewrite HlX, HtW. unfold n_elem. fold (n_cols (firstn (Z.to_nat k) w)).
    apply n_cols_firstn. unfold n_elem, n_cols in *. lia. }
  split.
  { exists k. repeat split; auto; lia. }
  split.
  { assert (Hk' := Hk). apply Calculate_Returned in Hk'.
    destruct Hk' as (_ & _ & _ & Htp & _). apply to_uword_bound in Htp.
    unfold construct, Init, AssertDataConsistency,
      InitTrainingAndValidationSets.
    cbn [xs ys weights trainingXs trainingYs validationXs validationYs
         trainingWeights modelPtr fresh].
    rewrite Hy, Z.eqb_refl. cbn [obind].
    unfold CalculateAndAssertNumberOfTrainingPoints in Hk |- *.
    cbn [xs with_data] in Hk |- *. rewrite Hk. cbn [obind].
    rewrite !(GetSubset_prefix E)
      by (unfold n_elem, n_cols in *; lia).
    cbn [obind]. rewrite HvX. cbn [obind]. rewrite HvY. cbn [obind].
    rewrite HtX, HtY. reflexivity. }
  intros this' args c Hr Hin.
  pose proof (reachable_same_split _ _ Hr) as Hs.
  destruct (trained_same_split _ _ args Hs) as [Ht Hcall].
  rewrite Evaluate_unfold, Hcall in Hin.
  destruct Hs as (_ & _ & _ & _ & _ & HsX & HsY & _).
  rewrite <- HsX, <- HsY in Hin.
  destruct (trained this' args) as [err|m]; cbn [calls snd In] in Hin.
  - destruct Hin as [<-|[]]. left. reflexivity.
  - destruct Hin as [<-|[<-|[]]]; [left; reflexivity|right; eauto].
Qed.

End Evaluation.

(* ================================================================== *)
(** ** Evaluation on the concrete instance *)

(** The object after a successful [Evaluate 5] on [Demo.cv4]. *)
Lemma cv4_Evaluate_5 :
  result (Demo.Evaluate false 5 Demo.cv4)
  = Returned (S754_finite false 4503599627370496 (-51)) /\
  result (Demo.Model (after (Demo.Evaluate false 5 Demo.cv4))) = Returned 5.
Proof. split; reflexivity. Qed.

(** C4, as stated, fails when the metric raises: after a successful
    [Evaluate 5] the stored model is [5]; the call [Evaluate 13] trains
    the model [13], the metric raises, the call fails, and the stored
    model is now [13]. *)
Lemma C4_counterexample :
  let this1 := after (Demo.Evaluate false 5 Demo.cv4) in
  let this2 := after (Demo.Evaluate false 13 this1) in
  result (Demo.Model this1) = Returned 5 /\
  result (Demo.Evaluate false 13 this1)
  = Threw (external "metric failed"%string) /\
  result (Demo.Model this2) = Returned 13 /\
  modelPtr this2 <> modelPtr this1.
Proof.
  cbv zeta. split; [reflexivity|]. split; [reflexivity|].
  split; [reflexivity|]. vm_compute. discriminate.
Qed.

(** C5, as stated, fails when the metric raises in the first [Evaluate]
    call: no [Evaluate] has succeeded, and [Model()] returns the model
    [13] instead of throwing. *)
Lemma C5_counterexample :
  Demo.construct Double.half (Unweighted [0; 1; 2; 3] [10; 11; 12; 13])
  = Returned Demo.cv4 /\
  result (Demo.Evaluate false 13 Demo.cv4)
  = Threw (external "metric failed"%string) /\
  result (Demo.Model (after (Demo.Evaluate false 13 Demo.cv4)))
  = Returned 13.
Proof. repeat split; vm_compute; reflexivity. Qed.

(** C3, as stated, fails for an algorithm that does not support
    weights: the constructor accepts the data with weights, and
    [Evaluate] calls the training routine in its unweighted form, without
    the training weights. *)
Lemma C3_counterexample :
  Demo.construct Double.half
    (WithWeights [0; 1; 2; 3] [10; 11; 12; 13] [5; 6; 7; 8])
  = Returned Demo.cv4w /\
  trainingWeights Demo.cv4w = [5; 6] /\
  calls (Demo.Evaluate false 5 Demo.cv4w)
  = [CallTrain [0; 1] [10; 11] 5; CallMetric 5 [2; 3] [12; 13]] /\
  calls (Demo.Evaluate false 5 Demo.cv4w)
  <> [CallTrainWeighted [0; 1] [10; 11] [5; 6] 5;
      CallMetric 1005 [2; 3] [12; 13]].
Proof.
  split; [vm_compute; reflexivity|]. split; [reflexivity|].
  split; [reflexivity|]. vm_compute. discriminate.
Qed.

Lemma C3_training_form_fixed_at_construction_witness :
  calls (Demo.Evaluate true 7 (after (Demo.Evaluate true 5 Demo.cv4w)))
  = [CallTrainWeighted [0; 1] [10; 11] [5; 6] 7;
     CallMetric 1007 [2; 3] [12; 13]] /\
  calls (Demo.Evaluate false 7 Demo.cv4w)
  = [CallTrain [0; 1] [10; 11] 7; CallMetric 7 [2; 3] [12; 13]].
Proof.
  split.
  - apply (proj1 (C3_training_form_fixed_at_construction Z Z Z Z Z string
                    Demo.train Demo.trainW Demo.metric true)
             Double.half [0; 1; 2; 3] [10; 11; 12; 13] [5; 6; 7; 8]
             Demo.cv4w (after (Demo.Evaluate true 5 Demo.cv4w)) 7).
    + reflexivity.
    + vm_compute. reflexivity.
    + apply reach_Evaluate. apply reach_refl.
  - apply (proj2 (proj2 (proj2
             (C3_training_form_fixed_at_construction Z Z Z Z Z string
                Demo.train Demo.trainW Demo.metric false)))
             eq_refl Demo.cv4w 7).
Defined.

Lemma C4_failed_Evaluate_witness :
  (exists err,
      trained Z Z Z Z Z string Demo.train Demo.trainW false Demo.cv4 13
      = inl err /\
      external "metric failed"%string = external err /\
      after (Demo.Evaluate false 13 Demo.cv4) = Demo.cv4) \/
  (exists m err,
      trained Z Z Z Z Z string Demo.train Demo.trainW false Demo.cv4 13
      = inr m /\
      Demo.metric m (validationXs Demo.cv4) (validationYs Demo.cv4)
      = inl err /\
      external "metric failed"%string = external err /\
      after (Demo.Evaluate false 13 Demo.cv4) = with_model Demo.cv4 m /\
      result (Demo.Model (after (Demo.Evaluate false 13 Demo.cv4)))
      = Returned m).
Proof.
  apply (C4_failed_Evaluate Z Z Z Z Z string Demo.train Demo.trainW
           Demo.metric false 13 Demo.cv4).
  reflexivity.
Defined.

Lemma C5_Model_access_witness :
  result (Demo.Model Demo.cv4) = Threw (logic_error uninitialized) /\
  result (Demo.Model (after (Demo.Evaluate false 5 Demo.cv4))) = Returned 5.
Proof.
  pose proof (C5_Model_access Z Z Z Z Z string Demo.train Demo.trainW
                Demo.metric false) as (H1 & _ & _ & H4 & _).
  split.
  - apply (H1 Double.half (Unweighted [0; 1; 2; 3] [10; 11; 12; 13])).
    vm_compute. reflexivity.
  - apply (H4 Demo.cv4 5 5). reflexivity.
Defined.

Lemma C6_state_machine_witness :
  state_of (after (Demo.Evaluate false 5 Demo.cv4)) = HasModel /\
  state_of (after (Demo.Evaluate false (-1)
                     (after (Demo.Evaluate false 5 Demo.cv4)))) = HasModel /\
  exists m2,
    trained Z Z Z Z Z string Demo.train Demo.trainW false
      (after (Demo.Evaluate false 5 Demo.cv4)) 6 = inr m2 /\
    result (Demo.Model (after (Demo.Evaluate false 6
                                 (after (Demo.Evaluate false 5 Demo.cv4)))))
    = Returned m2.
Proof.
  pose proof (C6_state_machine Z Z Z Z Z string Demo.train Demo.trainW
                Demo.metric false) as (_ & _ & H3 & H4 & _ & H6).
  split.
  - destruct (H3 Demo.cv4 5 (S754_finite false 4503599627370496 (-51)))
      as (m & _ & Hs & _); [reflexivity|exact Hs].
  - split.
    + apply (H4 (after (Demo.Evaluate false 5 Demo.cv4)) (-1)).
      reflexivity.
    + apply (H6 Demo.cv4 5 6 (S754_finite false 4503599627370496 (-51))
               (S754_finite false 4503599627370496 (-51)));
        reflexivity.
Defined.

Lemma C8_training_weights_witness :
  n_elem (trainingWeights Demo.cv4w) = n_cols (trainingXs Demo.cv4w) /\
  Demo.construct Double.half (Unweighted [0; 1; 2; 3] [10; 11; 12; 13])
  = Returned Demo.cv4.
Proof.
  destruct (C8_training_weights Z Z Z Z Z string Demo.train Demo.trainW
              Demo.metric true Double.half
              [0; 1; 2; 3] [10; 11; 12; 13] [5; 6; 7; 8] Demo.cv4w)
    as (H1 & _ & H3 & _).
  - vm_compute. reflexivity.
  - split; [exact H1|exact H3].
Defined.

Lemma C9_Evaluate_frame_witness :
  same_split Demo.cv4
    (after (Demo.Evaluate false 13 (after (Demo.Evaluate false 5 Demo.cv4)))).
Proof.
  apply (proj2 (C9_Evaluate_frame Z Z Z Z Z string Demo.train Demo.trainW
                  Demo.metric false)).
  apply reach_Evaluate. apply reach_Evaluate. apply reach_refl.
Defined.

(* ================================================================== *)
(** ** More on the constructor *)

Section ConstructorOutcomes.

Variables Point Target Weight MLAlgorithm E : Type.

Local Abbreviation SimpleCV := (SimpleCV Point Target Weight MLAlgorithm).
Local Abbreviation Calculate :=
  (CalculateAndAssertNumberOfTrainingPoints Point Target Weight MLAlgorithm E).
Local Abbreviation construct := (construct Point Target Weight MLAlgorithm E).
Local Abbreviation with_data :=
  (@with_data Point Target Weight MLAlgorithm).

(** A validation size of exactly [0.0], [-0.0] or [1.0] is not rejected by
    the range check: for 2 up to [2^53 - 1] points the number of training
    points is then [N] or [0], and the constructor throws the error of the
    degenerate split. *)
Theorem boundary_validation_sizes_rejected_late
    (d : DataArgs Point Target Weight) :
  consistent d ->
  2 <= n_cols (data_xs d) < 2 ^ 53 ->
  (forall s : bool,
      trainingPoints (S754_zero s) (n_cols (data_xs d))
      = Some (n_cols (data_xs d)) /\
      construct (S754_zero s) d
      = Threw (invalid_argument
          "SimpleCV: the validationSize parameter is either too small or too big"))
  /\
  trainingPoints Double.one (n_cols (data_xs d)) = Some 0 /\
  construct Double.one d
  = Threw (invalid_argument
      "SimpleCV: the validationSize parameter is either too small or too big").
Proof.
  intros Hd HN.
  assert (Hgen : forall (v : Double.double) (k : Z),
             Double.ltb v Double.zero = false ->
             Double.ltb Double.one v = false ->
             trainingPoints v (n_cols (data_xs d)) = Some k ->
             k = 0 \/ k = n_cols (data_xs d) ->
             construct v d
             = Threw (invalid_argument
                 "SimpleCV: the validationSize parameter is either too small or too big")).
  { intros v k H0 H1 Hk Hdeg.
    pose proof (construct_not_Returned Point Target Weight MLAlgorithm E
                  v d Hd) as Hnr.
    unfold CalculateAndAssertNumberOfTrainingPoints in Hnr.
    rewrite xs_with_data in Hnr.
    fold (trainingPoints v (n_cols (data_xs d))) in Hnr.
    rewrite H0, H1, Hk in Hnr. cbn [orb] in Hnr.
    destruct (Z.ltb_spec (n_cols (data_xs d)) 2) as [Hlt|_]; [lia|].
    destruct (Z.eqb_spec k 0) as [Hk0|Hk0]; cbn [orb] in Hnr;
      [exact Hnr|].
    destruct (Z.eqb_spec k (n_cols (data_xs d))) as [HkN|HkN];
      [exact Hnr|]. lia. }
  split.
  - intros s.
    assert (Hk : trainingPoints (S754_zero s) (n_cols (data_xs d))
                 = Some (n_cols (data_xs d)))
      by (apply trainingPoints_at_zero; lia).
    split; [exact Hk|].
    apply (Hgen (S754_zero s) (n_cols (data_xs d)));
      [destruct s; reflexivity|destruct s; reflexivity|exact Hk|].
    right. reflexivity.
  - assert (Hk : trainingPoints Double.one (n_cols (data_xs d)) = Some 0)
      by (apply trainingPoints_at_one; lia).
    split; [exact Hk|].
    apply (Hgen Double.one 0); [reflexivity|reflexivity|exact Hk|].
    left. reflexivity.
Qed.

(** For a validation size that is a number and fewer than [2^53] points
    the constructor has no undefined behaviour: the conversion of the
    rounded product to [size_t] is defined, its value is between [0] and
    [N], and no slice leaves its sequence. *)
Theorem construct_defined (v : Double.double)
    (d : DataArgs Point Target Weight) :
  Double.is_double v = true -> Double.is_nan v = false ->
  n_cols (data_xs d) < 2 ^ 53 ->
  (Double.ltb v Double.zero = false -> Double.ltb Double.one v = false ->
   exists k, trainingPoints v (n_cols (data_xs d)) = Some k /\
             0 <= k <= n_cols (data_xs d)) /\
  forall u : undefined_behaviour, construct v d <> Undefined u.
Proof.
  intros Hv Hnan HN. split.
  - intros H0 H1. apply trainingPoints_range; try assumption.
    unfold n_cols in *. lia.
  - intros u.
    destruct (consistent_dec _ _ _ d) as [Hd|Hd];
      [|rewrite construct_inconsistent by exact Hd; discriminate].
    pose proof (construct_not_Returned Point Target Weight MLAlgorithm E
                  v d Hd) as Hnr.
    destruct (Calculate (with_data d) v) as [k|e|u'] eqn:Hc.
    + destruct (Calculate_Returned_range Point Target Weight MLAlgorithm E
                  (with_data d) v k Hv)
        as (H2 & Hk & H0 & H1 & Htp);
        [rewrite xs_with_data; exact HN|exact Hc|].
      rewrite xs_with_data in *.
      assert (H64 : 2 ^ 53 < 2 ^ 64) by reflexivity.
      rewrite (construct_Returned Point Target Weight MLAlgorithm E v d k);
        try assumption;
        try lia.
      discriminate.
    + rewrite Hnr. discriminate.
    + exfalso. apply Calculate_Undefined in Hc.
      destruct Hc as (_ & H0 & H1 & Hc). rewrite xs_with_data in Hc.
      destruct (trainingPoints_range v (n_cols (data_xs d)) Hv Hnan H0 H1)
        as (k & Hk & _); [unfold n_cols in *; lia|].
      congruence.
Qed.

(** NaN passes the range check whatever the data: with fewer than two
    points the constructor throws the error on the number of points, with
    two or more it reaches the undefined conversion of NaN to [size_t]. *)
Theorem construct_nan (d : DataArgs Point Target Weight) :
  consistent d ->
  (n_cols (data_xs d) < 2 ->
   construct Double.nan d
   = Threw (invalid_argument
       "SimpleCV: 2 or more data points are expected")) /\
  (2 <= n_cols (data_xs d) ->
   construct Double.nan d = Undefined float_to_integer_out_of_range).
Proof.
  intros Hd.
  pose proof (construct_not_Returned Point Target Weight MLAlgorithm E
                Double.nan d Hd) as Hnr.
  unfold CalculateAndAssertNumberOfTrainingPoints in Hnr.
  rewrite xs_with_data in Hnr.
  fold (trainingPoints Double.nan (n_cols (data_xs d))) in Hnr.
  rewrite trainingPoints_nan in Hnr.
  change (Double.ltb Double.nan Double.zero
          || Double.ltb Double.one Double.nan) with false in Hnr.
  split; intros HN;
    destruct (Z.ltb_spec (n_cols (data_xs d)) 2) as [Hlt|Hge];
    try lia; exact Hnr.
Qed.

(** The weights change neither the outcome of the constructor nor the
    split: with as many weights as points, the constructor with weights
    fails exactly as the one without, and where that one returns it
    returns the same object with the weights stored and the first
    [trainingXs.n_cols] weights as training weights. *)
Theorem construct_weights_lift (v : Double.double) (x : list Point)
    (y : list Target) (w : list Weight) :
  n_elem w = n_cols x ->
  construct v (WithWeights x y w)
  = match construct v (Unweighted x y) with
    | Returned u => Returned (with_weights u w)
    | Threw e => Threw e
    | Undefined b => Undefined b
    end.
Proof.
  intros Hw.
  unfold construct, Init, InitWeighted, AssertDataConsistencyW,
    AssertDataConsistency, InitTrainingAndValidationSets.
  cbn [xs ys weights trainingXs trainingYs validationXs validationYs
       trainingWeights modelPtr fresh].
  destruct (n_cols x =? n_elem y); cbn [obind]; [|reflexivity].
  rewrite Hw, Z.eqb_refl.
  unfold CalculateAndAssertNumberOfTrainingPoints. cbn [xs].
  match goal with
  | |- context [obind ?c _] =>
      match c with
      | if _ then _ else _ => destruct c as [k|e|b]
      end
  end; cbn [obind]; try reflexivity.
  destruct (GetSubset x 0 (usub k 1)) as [trX|e|b] eqn:H1;
    cbn [obind]; try reflexivity.
  destruct (GetSubset y 0 (usub k 1)) as [trY|e|b];
    cbn [obind]; try reflexivity.
  destruct (GetSubset x k (usub (n_cols x) 1)) as [vaX|e|b];
    cbn [obind]; try reflexivity.
  destruct (GetSubset y k (usub (n_cols x) 1)) as [vaY|e|b];
    cbn [obind]; try reflexivity.
  cbn [trainingXs weights xs ys trainingYs validationXs validationYs
       modelPtr].
  apply GetSubset_inv in H1. destruct H1 as (Hf & Hl & HtrX).
  assert (Hu : 0 <= usub k 1 < 2 ^ 64)
    by (unfold usub; apply Z.mod_pos_bound; reflexivity).
  assert (Hlen : n_cols trX = usub k 1 + 1).
  { rewrite HtrX. cbn [skipn Z.to_nat].
    replace (usub k 1 - 0 + 1) with (usub k 1 + 1) by lia.
    apply n_cols_firstn. lia. }
  rewrite Hlen. rewrite (usub_1 (usub k 1 + 1)) by lia.
  replace (usub k 1 + 1 - 1) with (usub k 1) by lia.
  unfold GetSubset.
  replace ((0 <=? 0) && (0 <=? usub k 1) && (usub k 1 <? n_cols w))
    with true
    by (symmetry; rewrite !andb_true_iff, !Z.leb_le, Z.ltb_lt;
        unfold n_elem, n_cols in *; lia).
  cbn [obind skipn Z.to_nat]. unfold with_weights.
  cbn [xs ys weights trainingXs trainingYs validationXs validationYs
       trainingWeights modelPtr].
  do 2 f_equal. f_equal. unfold n_cols in Hlen. lia.
Qed.

(** Whenever the constructor returns, the object holds the data as given,
    no model, and a split into a non-empty prefix and a non-empty suffix:
    [k] training points and [N - k] validation points with as many
    targets each, training followed by validation being the data (and [k]
    training weights when weights were given). *)
Theorem constructed_object_invariant (v : Double.double)
    (d : DataArgs Point Target Weight) (this : SimpleCV) :
  construct v d = Returned this ->
  n_cols (data_xs d) < 2 ^ 64 ->
  modelPtr this = None /\
  xs this = data_xs d /\ ys this = data_ys d /\
  exists k,
    1 <= k <= n_cols (data_xs d) - 1 /\
    n_cols (trainingXs this) = k /\ n_elem (trainingYs this) = k /\
    n_cols (validationXs this) = n_cols (data_xs d) - k /\
    n_elem (validationYs this) = n_cols (data_xs d) - k /\
    trainingXs this ++ validationXs this = data_xs d /\
    trainingYs this ++ validationYs this = data_ys d /\
    match d with
    | Unweighted _ _ => trainingWeights this = []
    | WithWeights _ _ w =>
        weights this = w /\ n_elem (trainingWeights this) = k /\
        trainingWeights this = firstn (Z.to_nat k) w
    end.
Proof.
  intros Hc H64. apply construct_inv in Hc.
  destruct Hc as (Hd & Hm & Hxs & Hys & k & _ & Hk & HtX & HtY & HvX & HvY
                  & Hw).
  split; [exact Hm|]. split; [exact Hxs|]. split; [exact Hys|].
  assert (Hy : n_elem (data_ys d) = n_cols (data_xs d))
    by (destruct d; cbn [consistent data_xs data_ys] in *; tauto).
  apply GetSubset_inv in HvX, HvY.
  rewrite usub_1 in HvX, HvY by lia.
  destruct HvX as (HkN & _ & HvX), HvY as (_ & _ & HvY).
  assert (HsX : validationXs this = skipn (Z.to_nat k) (data_xs d)).
  { rewrite HvX. apply firstn_all2. rewrite length_skipn.
    unfold n_cols in *. lia. }
  assert (HsY : validationYs this = skipn (Z.to_nat k) (data_ys d)).
  { rewrite HvY. apply firstn_all2. rewrite length_skipn.
    unfold n_elem, n_cols in *. lia. }
  exists k. split; [lia|].
  rewrite HtX, HtY, HsX, HsY, !firstn_skipn.
  unfold n_elem, n_cols in *.
  rewrite !length_firstn, !length_skipn.
  repeat split; try lia.
  destruct d as [x y|x y w]; cbn [consistent data_xs data_ys] in *.
  - tauto.
  - destruct Hw as [Hw1 Hw2]. rewrite Hw2, length_firstn.
    unfold n_elem, n_cols in Hd. repeat split; auto. lia.
Qed.

(** The inputs the constructor accepts: for fewer than [2^64] points it
    returns exactly when the counts match, the validation size is neither
    below [0.0] nor above [1.0], and the rounded product converts to a
    number of training points strictly between [0] and [N]; the object
    it returns is then the split at that number. *)
Theorem construct_returns_iff (v : Double.double)
    (d : DataArgs Point Target Weight) (this : SimpleCV) :
  n_cols (data_xs d) < 2 ^ 64 ->
  (construct v d = Returned this <->
   consistent d /\
   Double.ltb v Double.zero = false /\ Double.ltb Double.one v = false /\
   exists k,
     trainingPoints v (n_cols (data_xs d)) = Some k /\
     0 < k < n_cols (data_xs d) /\
     this =
     mkSimpleCV (data_xs d) (data_ys d)
       (match d with Unweighted _ _ => [] | WithWeights _ _ w => w end)
       (firstn (Z.to_nat k) (data_xs d)) (firstn (Z.to_nat k) (data_ys d))
       (skipn (Z.to_nat k) (data_xs d)) (skipn (Z.to_nat k) (data_ys d))
       (match d with
        | Unweighted _ _ => []
        | WithWeights _ _ w => firstn (Z.to_nat k) w
        end)
       None).
Proof.
  intros H64. split.
  - intros Hc. assert (Hinv := Hc). apply construct_inv in Hinv.
    destruct Hinv as (Hd & _ & _ & _ & k & Hk & Hkr & _ & _ & HvX & _).
    apply Calculate_Returned in Hk. rewrite xs_with_data in Hk.
    destruct Hk as (H0 & H1 & _ & Htp & _ & HkN).
    split; [exact Hd|]. split; [exact H0|]. split; [exact H1|].
    exists k. split; [exact Htp|]. split; [lia|].
    rewrite (construct_Returned Point Target Weight MLAlgorithm E v d k)
      in Hc; try assumption; try lia.
    inversion Hc. reflexivity.
  - intros (Hd & H0 & H1 & k & Htp & Hk & ->).
    apply construct_Returned; try assumption. lia.
Qed.

End ConstructorOutcomes.

(* ================================================================== *)
(** ** More on evaluation *)

Section EvaluationSequences.

Variables Point Target Weight MLAlgorithm Args E : Type.
Variable TrainUnweighted :
  list Point -> list Target -> Args -> E + MLAlgorithm.
Variable TrainWeighted :
  list Point -> list Target -> list Weight -> Args -> E + MLAlgorithm.
Variable MetricEvaluate :
  MLAlgorithm -> list Point -> list Target -> E + Double.double.
Variable SupportsWeights : bool.

Local Abbreviation SimpleCV := (SimpleCV Point Target Weight MLAlgorithm).
Local Abbreviation Evaluate :=
  (Evaluate Point Target Weight MLAlgorithm Args E
     TrainUnweighted TrainWeighted MetricEvaluate SupportsWeights).
Local Abbreviation Model := (Model Point Target Weight MLAlgorithm Args E).
Local Abbreviation reachable :=
  (reachable Point Target Weight MLAlgorithm Args E
     TrainUnweighted TrainWeighted MetricEvaluate SupportsWeights).
Local Abbreviation trained :=
  (trained Point Target Weight MLAlgorithm Args E
     TrainUnweighted TrainWeighted SupportsWeights).
Local Abbreviation after_Evaluates :=
  (after_Evaluates Point Target Weight MLAlgorithm Args E
     TrainUnweighted TrainWeighted MetricEvaluate SupportsWeights).
Local Abbreviation last_trained :=
  (last_trained Point Target Weight MLAlgorithm Args E
     TrainUnweighted TrainWeighted SupportsWeights).

(** The outcome of [Evaluate] does not depend on the calls made before:
    in every state reached through [Evaluate] and [Model] calls, the
    stored model is not passed to the training routine nor to the metric,
    so the same arguments give the same score or error and the same
    external calls as on the starting object. *)
Theorem Evaluate_history_independent (this0 this : SimpleCV)
    (args : Args) :
  reachable this0 this ->
  result (Evaluate args this) = result (Evaluate args this0) /\
  calls (Evaluate args this) = calls (Evaluate args this0).
Proof.
  intros Hr.
  pose proof (reachable_same_split _ _ _ _ _ _ _ _ _ _ _ _ Hr) as Hs.
  destruct (trained_same_split _ _ _ _ _ _ TrainUnweighted TrainWeighted
              SupportsWeights _ _ args Hs) as [Ht Hcall].
  rewrite !Evaluate_unfold, Ht, Hcall.
  destruct Hs as (_ & _ & _ & _ & _ & HvX & HvY & _).
  rewrite <- HvX, <- HvY.
  destruct (trained this0 args); split; reflexivity.
Qed.

Lemma last_trained_same_split (a b : SimpleCV) (argss : list Args)
    (p : option MLAlgorithm) :
  same_split a b -> last_trained b argss p = last_trained a argss p.
Proof.
  intros Hs. revert p. unfold last_trained.
  induction argss as [|x l IH]; intros p; cbn [fold_left].
  - reflexivity.
  - destruct (trained_same_split _ _ _ _ _ _ TrainUnweighted TrainWeighted
                SupportsWeights _ _ x Hs) as [-> _].
    apply IH.
Qed.

(** After any sequence of [Evaluate] calls, failed ones included, the
    stored model is the one of the last call whose training step
    succeeded (the model from before the sequence if there is none), the
    data and the split are those from before, and [Model()] returns that
    model or throws the logic error when there is none. *)
Theorem after_Evaluates_model (argss : list Args) (this : SimpleCV) :
  modelPtr (after_Evaluates argss this)
  = last_trained this argss (modelPtr this) /\
  same_split this (after_Evaluates argss this) /\
  result (Model (after_Evaluates argss this))
  = match last_trained this argss (modelPtr this) with
    | Some m => Returned m
    | None => Threw (logic_error uninitialized)
    end.
Proof.
  assert (Hmain : forall (l : list Args) (t : SimpleCV),
             modelPtr (after_Evaluates l t)
             = last_trained t l (modelPtr t) /\
             same_split t (after_Evaluates l t)).
  { induction l as [|a l IH]; intros t.
    - split; [reflexivity|apply same_split_refl].
    - unfold after_Evaluates, last_trained.
      cbn [fold_left].
      fold (after_Evaluates l (after (Evaluate a t))).
      pose proof (Evaluate_same_split _ _ _ _ _ _ TrainUnweighted
                    TrainWeighted MetricEvaluate SupportsWeights a t) as Hs.
      destruct (IH (after (Evaluate a t))) as [IHm IHs].
      split; [|eapply same_split_trans; eassumption].
      rewrite IHm, (last_trained_same_split _ _ l _ Hs).
      unfold last_trained. f_equal.
      rewrite Evaluate_unfold.
      destruct (trained t a); reflexivity. }
  destruct (Hmain argss this) as [Hm Hs].
  split; [exact Hm|]. split; [exact Hs|].
  unfold Model. rewrite Hm.
  destruct (last_trained this argss (modelPtr this)); reflexivity.
Qed.

End EvaluationSequences.

(* ================================================================== *)
(** ** The further properties on the concrete instance *)

Lemma boundary_validation_sizes_rejected_late_witness :
  Demo.construct Double.one (Unweighted [0; 1; 2; 3] [10; 11; 12; 13])
  = Threw (invalid_argument
      "SimpleCV: the validationSize parameter is either too small or too big").
Proof.
  apply (boundary_validation_sizes_rejected_late Z Z Z Z string
           (Unweighted [0; 1; 2; 3] [10; 11; 12; 13])).
  - reflexivity.
  - split; [vm_compute; discriminate|vm_compute; reflexivity].
Defined.

Lemma construct_defined_witness :
  Demo.construct Double.d0_3 (Unweighted Demo.ten_xs Demo.ten_ys)
  <> Undefined float_to_integer_out_of_range /\
  Demo.construct Double.d0_3 (Unweighted Demo.ten_xs Demo.ten_ys)
  <> Undefined subset_out_of_bounds.
Proof.
  destruct (construct_defined Z Z Z Z string Double.d0_3
              (Unweighted Demo.ten_xs Demo.ten_ys)) as [_ Hu].
  - reflexivity.
  - reflexivity.
  - vm_compute. reflexivity.
  - split; apply Hu.
Defined.

Lemma construct_nan_witness :
  Demo.construct Double.nan (Unweighted [0] [10])
  = Threw (invalid_argument "SimpleCV: 2 or more data points are expected").
Proof.
  apply (construct_nan Z Z Z Z string (Unweighted [0] [10])).
  - reflexivity.
  - vm_compute. reflexivity.
Defined.

Lemma construct_weights_lift_witness :
  Demo.construct Double.half
    (WithWeights [0; 1; 2; 3] [10; 11; 12; 13] [5; 6; 7; 8])
  = match Demo.construct Double.half
            (Unweighted [0; 1; 2; 3] [10; 11; 12; 13]) with
    | Returned u => Returned (with_weights u [5; 6; 7; 8])
    | Threw e => Threw e
    | Undefined b => Undefined b
    end.
Proof.
  apply (construct_weights_lift Z Z Z Z string Double.half
           [0; 1; 2; 3] [10; 11; 12; 13] [5; 6; 7; 8]).
  reflexivity.
Defined.

Lemma constructed_object_invariant_witness :
  exists k,
    1 <= k <= 10 - 1 /\
    n_cols (trainingXs Demo.cv10) = k /\
    n_cols (validationXs Demo.cv10) = 10 - k.
Proof.
  destruct (constructed_object_invariant Z Z Z Z string Double.d0_3
              (Unweighted Demo.ten_xs Demo.ten_ys) Demo.cv10)
    as (_ & _ & _ & k & Hk & H1 & _ & H2 & _).
  - vm_compute. reflexivity.
  - vm_compute. reflexivity.
  - exists k. split; [exact Hk|]. split; [exact H1|exact H2].
Defined.

Lemma construct_invalid_argument_iff_witness :
  is_invalid_argument
    (Demo.construct Double.zero (Unweighted [0; 1] [10; 11])) = true <->
  ~ (Double.ltb Double.zero Double.zero = true /\
     Double.ltb Double.zero Double.one = true)
  \/ n_cols [0; 1] < 2
  \/ trainingPoints Double.zero (n_cols [0; 1]) = Some 0
  \/ trainingPoints Double.zero (n_cols [0; 1]) = Some (n_cols [0; 1]).
Proof.
  apply (construct_invalid_argument_iff Z Z Z Z string Double.zero
           (Unweighted [0; 1] [10; 11])).
  - reflexivity.
  - reflexivity.
  - reflexivity.
  - vm_compute. reflexivity.
Defined.

Lemma Evaluate_history_independent_witness :
  result (Demo.Evaluate false 6
            (after (Demo.Evaluate false 13
                      (after (Demo.Evaluate false 5 Demo.cv4)))))
  = result (Demo.Evaluate false 6 Demo.cv4).
Proof.
  apply (Evaluate_history_independent Z Z Z Z Z string Demo.train
           Demo.trainW Demo.metric false Demo.cv4).
  apply reach_Evaluate. apply reach_Evaluate. apply reach_refl.
Defined.

Lemma construct_returns_iff_witness :
  Demo.construct Double.half (Unweighted [0; 1] [10; 11])
  = Returned Demo.cv2.
Proof.
  apply (construct_returns_iff Z Z Z Z string Double.half
           (Unweighted [0; 1] [10; 11]) Demo.cv2).
  - vm_compute. reflexivity.
  - split; [reflexivity|]. split; [reflexivity|]. split; [reflexivity|].
    exists 1. split; [vm_compute; reflexivity|].
    split; [split; vm_compute; reflexivity|reflexivity].
Defined.
